(** * The children's-news pipeline of [main.py], embedded in Rocq

    The program fetches the first article of a newspaper's front page,
    asks a generative model for a child-friendly explanation, renders the
    JSON answer into an HTML fragment and posts it.  Every function of
    [main.py] is translated below into a function of a small monad that
    threads the chronological list of observable events (HTTP requests,
    model calls, sleeps, log records, posts) and carries Python
    exceptions.  External collaborators (the HTTP transport, the HTML
    parser, the JSON parser, the model, the post API) are read from a
    [World] record or from an interface, so the theorems hold for every
    behaviour they may show. *)

From Stdlib Require Import ZArith Lia DecimalString.
From stdpp Require Import base option list strings gmap.

Local Open Scope string_scope.
Local Open Scope Z_scope.

(** ** Strings *)

Definition nl : string := String (Ascii.ascii_of_nat 10) EmptyString.
Definition dq : string := String (Ascii.ascii_of_nat 34) EmptyString.

(** [str(n)] for a Python int. *)
Definition str_int (n : Z) : string := NilZero.string_of_int (Z.to_int n).

(** [needle in hay] for two Python strings: [needle] occurs somewhere in
    [hay]. *)
Fixpoint str_in (needle hay : string) : bool :=
  String.prefix needle hay
  || match hay with
     | EmptyString => false
     | String _ hay' => str_in needle hay'
     end.

(** [sep.join(xs)]. *)
Fixpoint join (sep : string) (xs : list string) : string :=
  match xs with
  | [] => EmptyString
  | [x] => x
  | x :: xs' => x +:+ sep +:+ join sep xs'
  end.

(** ** Exceptions and results *)

Inductive exn_class :=
  | Exception | ValueError | TypeError | KeyError | AttributeError
  | OSError | JSONDecodeError | ApiError | OtherError | OverflowError.

(** An exception object: its class and its argument.  For [KeyError] the
    argument is the key. *)
Record exn := mk_exn { exn_cls : exn_class; exn_arg : string }.

#[global] Instance exn_class_eq_dec : EqDecision exn_class.
Proof. solve_decision. Defined.
#[global] Instance exn_eq_dec : EqDecision exn.
Proof. solve_decision. Defined.

(** [str(e)]: the message, except that a [KeyError] shows the repr of its
    key. *)
Definition str_exn (e : exn) : string :=
  match exn_cls e with
  | KeyError => "'" +:+ exn_arg e +:+ "'"
  | _ => exn_arg e
  end.

Inductive result (A : Type) :=
  | Return (a : A)
  | Raise (e : exn).
Arguments Return {A} a.
Arguments Raise {A} e.

(** ** Observable events *)

Inductive level := INFO | WARNING | ERROR.

(** What [getGeminiResponse] sends to the model on each attempt. *)
Record request := mk_request {
  req_model : option string;        (* os.environ.get("GEMINI_MODEL") *)
  req_user_prompt : string;         (* contents[0].parts[0].text *)
  req_temperature : string;         (* the literal 0.7 *)
  req_response_mime_type : string;
  req_system_instruction : string   (* the text of prompt.md *)
}.

Record post := mk_post {
  post_title : string;
  post_content : string;
  post_category : string;
  post_writer : string;
  post_image_paths : list string;
  post_thumbnail : string
}.

Inductive event :=
  | HttpGet (url user_agent : string)
  | GenerateContent (req : request)
  | Sleep (secs : Z)
  | Log (lvl : level) (msg : string)
  | CreatePost (p : post)
  | TelegramTest (msg : string).

(** The events that touch the network. *)
Definition is_network (e : event) : bool :=
  match e with
  | HttpGet _ _ | GenerateContent _ | CreatePost _ | TelegramTest _ => true
  | Sleep _ | Log _ _ => false
  end.

Definition is_sleep (e : event) : bool :=
  match e with Sleep _ => true | _ => false end.

Definition is_model_call (e : event) : bool :=
  match e with GenerateContent _ => true | _ => false end.

(** ** The monad: an event log threaded through, and exceptions *)

Definition M (A : Type) : Type := list event → list event * result A.

Definition ret {A} (a : A) : M A := λ t, (t, Return a).
Definition raise {A} (e : exn) : M A := λ t, (t, Raise e).
Definition bind {A B} (m : M A) (k : A → M B) : M B :=
  λ t, match m t with
       | (t', Return a) => k a t'
       | (t', Raise e) => (t', Raise e)
       end.
Definition emit (e : event) : M unit := λ t, ((t ++ [e])%list, Return tt).

(** [try: body / except Exception as e: handler e]. *)
Definition try_except {A} (body : M A) (handler : exn → M A) : M A :=
  λ t, match body t with
       | (t', Raise e) => handler e t'
       | r => r
       end.

(** A pure computation that may raise, run inside [M]. *)
Definition lift {A} (r : result A) : M A := λ t, (t, r).

Notation "'let*' x ':=' m 'in' k" := (bind m (λ x, k))
  (at level 10, x name, m at level 100, k at level 200).
Notation "m ;;; k" := (bind m (λ _, k))
  (at level 100, k at level 200, right associativity).

(** A [for] loop whose body may [return] from the enclosing function:
    the body answers [Some v] for [return v] and [None] when it falls
    through or executes [continue]. *)
Fixpoint for_each {A R} (xs : list A) (body : A → M (option R)) : M (option R) :=
  match xs with
  | [] => ret None
  | x :: xs' =>
      let* r := body x in
      match r with
      | Some v => ret (Some v)
      | None => for_each xs' body
      end
  end.

(** [range(n)]; empty when [n <= 0]. *)
Definition range (n : Z) : list Z := Z.of_nat <$> seq 0 (Z.to_nat n).

Definition logger (lvl : level) (msg : string) : M unit := emit (Log lvl msg).

(** The longest duration, in seconds, that [time.sleep] can turn into
    its 64-bit count of nanoseconds. *)
Definition sleep_max : Z := 9223372036.

(** [time.sleep(secs)] for an int: a duration that does not fit the
    64-bit count of nanoseconds is refused with [OverflowError], then a
    negative one with [ValueError]; otherwise the process sleeps. *)
Definition time_sleep (secs : Z) : M unit :=
  if (secs <? - sleep_max) || (sleep_max <? secs)
  then raise (mk_exn OverflowError "timestamp too large to convert to C _PyTime_t")
  else if secs <? 0
  then raise (mk_exn ValueError "sleep length must be non-negative")
  else emit (Sleep secs).

(** ** The outside world *)

Record response := mk_response { status_code : Z; text : string }.

Record World := mk_world {
  (* os.environ once load_dotenv() has run *)
  environ : gmap string string;
  (* requests.get(url, headers={"User-Agent": ua}) *)
  requests_get : string → string → result response;
  (* the contents of prompt.md next to main.py; None when there is no such file *)
  prompt_md : option string;
  (* client.models.generate_content(...).text on the k-th call of an
     invocation of getGeminiResponse, or the exception it raises; an
     answer is taken to carry text (a response whose text is None is not
     covered) *)
  generate_content : nat → request → result string;
  (* api_util.create_post(...) *)
  create_post : post → result unit;
  (* telegram.send_test_message(...) *)
  send_test_message : string → result unit;
  (* datetime.today().strftime("%Y-%m-%d") and ("%Y%m%d") *)
  today_dashed : string;
  today_compact : string;
  (* UserAgent().random *)
  ua_random : string;
  (* os.path.dirname(os.path.abspath(__file__)) *)
  script_dir : string
}.

(** ** [getGeminiResponse] *)

Definition transient_markers : list string :=
  ["503"; "429"; "UNAVAILABLE"; "RESOURCE_EXHAUSTED"].

(** [any(err in error_message for err in [...])] *)
Definition is_transient (error_message : string) : bool :=
  existsb (λ err, str_in err error_message) transient_markers.

Definition user_prompt (title body : string) : string :=
  nl +:+ "    뉴스 제목: " +:+ title +:+ nl +:+
  "    뉴스 본문: " +:+ body +:+ nl +:+ "    ".

Definition msg_overloaded (wait_time attempt max_retries : Z) : string :=
  "API 서버 과부하. " +:+ str_int wait_time +:+ "초 후 재시도... (시도 " +:+
  str_int (attempt + 1) +:+ "/" +:+ str_int max_retries +:+ ")".
Definition msg_exhausted (error_message : string) : string :=
  "API 호출 최대 재시도 횟수 초과: " +:+ error_message.
Definition msg_unexpected (error_message : string) : string :=
  "API 호출 중 예상치 못한 오류 발생: " +:+ error_message.
Definition msg_success : string := "✅ Gemini API 호출 성공".

(** The model name, the contents and the configuration of lines 63-86. *)
Definition gemini_request (w : World) (title body system_prompt : string)
  : request :=
  {| req_model := environ w !! "GEMINI_MODEL";
     req_user_prompt := user_prompt title body;
     req_temperature := "0.7";
     req_response_mime_type := "application/json";
     req_system_instruction := system_prompt |}.

(** [genai.Client(api_key=...)], line 59: without a key the constructor
    raises.  The environment is taken to hold no other credential that
    the library would fall back to. *)
Definition genai_client (api_key : option string) : result unit :=
  match api_key with
  | Some (String _ _) => Return tt
  | _ =>
      Raise (mk_exn ValueError
               ("Missing key inputs argument! To use the Google AI API, " +:+
                "provide (`api_key`) arguments. To use the Google Cloud API, " +:+
                "provide (`vertexai`, `project` & `location`) arguments."))
  end.

(** [os.path.join(dir, name)] for a relative [name]. *)
Definition path_join (dir name : string) : string :=
  (if String.eqb dir EmptyString then EmptyString
   else if str_in "/" (String.substring (String.length dir - 1) 1 dir) then dir
   else dir +:+ "/") +:+ name.

(** The path of prompt.md, next to the script. *)
Definition prompt_path (w : World) : string := path_join (script_dir w) "prompt.md".

(** [open(path, "r", encoding="utf-8").read()] of line 65. *)
Definition read_prompt (w : World) : result string :=
  match prompt_md w with
  | Some system_prompt => Return system_prompt
  | None =>
      Raise (mk_exn OSError
               ("[Errno 2] No such file or directory: '" +:+ prompt_path w +:+ "'"))
  end.

(** Lines 57-86: everything before the retry loop.  None of it is inside
    the [try], so what it raises leaves the function: the constructor of
    the client (line 59) and the read of prompt.md (line 65).  The logger
    of line 57 is taken to be constructed without error. *)
Definition gemini_setup (w : World) (title body : string) : M request :=
  lift (genai_client (environ w !! "GOOGLE_API_KEY")) ;;;
  let* system_prompt := lift (read_prompt w) in
  ret (gemini_request w title body system_prompt).

(** Lines 91-100: the body of the [try]. *)
Definition gemini_try (w : World) (req : request) (success_delay attempt : Z)
  : M (option (option string)) :=
  emit (GenerateContent req) ;;;
  let* result := lift (generate_content w (Z.to_nat attempt) req) in
  time_sleep success_delay ;;;
  logger INFO msg_success ;;;
  ret (Some (Some result)).

(** Lines 101-115: the [except Exception as e] handler. *)
Definition gemini_except (max_retries retry_delay attempt : Z) (e : exn)
  : M (option (option string)) :=
  let error_message := str_exn e in
  if is_transient error_message then
    let wait_time := retry_delay * 2 ^ attempt in
    logger WARNING (msg_overloaded wait_time attempt max_retries) ;;;
    if attempt <? max_retries - 1 then
      time_sleep wait_time ;;;
      ret None
    else
      logger ERROR (msg_exhausted error_message) ;;;
      ret (Some None)
  else
    logger ERROR (msg_unexpected error_message) ;;;
    ret (Some None).

Definition gemini_attempt (w : World) (req : request)
    (max_retries retry_delay success_delay attempt : Z)
  : M (option (option string)) :=
  try_except (gemini_try w req success_delay attempt)
             (gemini_except max_retries retry_delay attempt).

Definition gemini_loop (w : World) (req : request)
    (max_retries retry_delay success_delay : Z) (attempts : list Z)
  : M (option (option string)) :=
  for_each attempts (gemini_attempt w req max_retries retry_delay success_delay).

(** The Python [None] is [None]; a response text [s] is [Some s]. *)
Definition getGeminiResponse (w : World) (title body : string)
    (max_retries retry_delay success_delay : Z) : M (option string) :=
  let* req := gemini_setup w title body in
  let* r := gemini_loop w req max_retries retry_delay success_delay (range max_retries) in
  match r with
  | Some v => ret v
  | None => ret None
  end.

(** The defaults of the signature. *)
Definition default_max_retries : Z := 3.
Definition default_retry_delay : Z := 5.
Definition default_success_delay : Z := 3.

(** ** The HTML parser, as the program uses it *)

(** The keyword filter of a [find] call: [class_=...] or [id=...]. *)
Inductive attr_filter :=
  | ByClass (c : string)
  | ById (i : string)
  | NoFilter.

(** The part of the BeautifulSoup interface that [main.py] calls.  A
    parsed document is itself a tag. *)
Class Soup (tag : Type) := {
  (* BeautifulSoup(markup, "html.parser") *)
  BeautifulSoup : string → tag;
  (* t.find(name, class_=c) / t.find(name, id=i) / t.find(name):
     the first matching descendant, or None *)
  find : tag → string → attr_filter → option tag;
  (* t.attrs.get(key) *)
  get_attr : tag → string → option string;
  (* t.get_text(separator=sep, strip=True) *)
  get_text : tag → string → string
}.

(** A tag object is always truthy; [None] is falsy. *)
Definition truthy {A} (o : option A) : bool :=
  match o with Some _ => true | None => false end.

Section with_soup.
Context {tag : Type} {soup_lib : Soup tag}.

(** Method calls on a value that may be [None]: Python raises
    [AttributeError] (or [TypeError] for a subscript) on [None]. *)
Definition call_find (receiver : option tag) (name : string) (f : attr_filter)
  : result (option tag) :=
  match receiver with
  | Some t => Return (find t name f)
  | None => Raise (mk_exn AttributeError "'NoneType' object has no attribute 'find'")
  end.

Definition call_has_attr (receiver : option tag) (key : string) : result bool :=
  match receiver with
  | Some t => Return (truthy (get_attr t key))
  | None => Raise (mk_exn AttributeError "'NoneType' object has no attribute 'has_attr'")
  end.

Definition call_getitem (receiver : option tag) (key : string) : result string :=
  match receiver with
  | Some t =>
      match get_attr t key with
      | Some v => Return v
      | None => Raise (mk_exn KeyError key)
      end
  | None => Raise (mk_exn TypeError "'NoneType' object is not subscriptable")
  end.

Definition call_get_text (receiver : option tag) (sep : string) : result string :=
  match receiver with
  | Some t => Return (get_text t sep)
  | None => Raise (mk_exn AttributeError "'NoneType' object has no attribute 'get_text'")
  end.

Definition msg_list_failed (status : Z) : string :=
  "🛑 기사 목록 요청 실패: " +:+ str_int status.
Definition msg_no_link : string := "🛑 기사 링크를 찾을 수 없습니다.".
Definition msg_page_failed (status : Z) : string :=
  "🛑 기사 페이지 요청 실패: " +:+ str_int status.
Definition no_title : string := "❌ 제목 없음".
Definition no_body : string := "❌ 본문 없음".

Definition listing_url (press_code date : string) : string :=
  "https://media.naver.com/press/" +:+ press_code +:+ "/newspaper?date=" +:+ date.

(** [x.find(...) if x else None] *)
Definition find_if (x : option tag) (name : string) (f : attr_filter)
  : M (option tag) :=
  if truthy x then lift (call_find x name f) else ret None.

(** [headers] is the dict with the single key "User-Agent". *)
Definition getFirstArticleUrl (w : World) (press_code date user_agent : string)
  : M string :=
  let url := listing_url press_code date in
  emit (HttpGet url user_agent) ;;;
  let* resp := lift (requests_get w url user_agent) in
  if bool_decide (status_code resp ≠ 200) then
    raise (mk_exn Exception (msg_list_failed (status_code resp)))
  else
    let soup := BeautifulSoup (text resp) in
    let brick_div := find soup "div" (ByClass "newspaper_brick_item _start_page") in
    let* ul := find_if brick_div "ul" (ByClass "newspaper_article_lst") in
    let* first_li := find_if ul "li" NoFilter in
    let* link_tag := find_if first_li "a" NoFilter in
    (* link_tag and link_tag.has_attr("href") *)
    let* ok := (if truthy link_tag then lift (call_has_attr link_tag "href")
                else ret false) in
    if negb ok then raise (mk_exn Exception msg_no_link)
    else lift (call_getitem link_tag "href").

Definition getArticleContent (w : World) (article_url user_agent : string)
  : M (string * string) :=
  emit (HttpGet article_url user_agent) ;;;
  let* resp := lift (requests_get w article_url user_agent) in
  if bool_decide (status_code resp ≠ 200) then
    raise (mk_exn Exception (msg_page_failed (status_code resp)))
  else
    let soup := BeautifulSoup (text resp) in
    let title_div := find soup "div" (ByClass "media_end_head_title") in
    let* title := (if truthy title_div then lift (call_get_text title_div EmptyString)
                   else ret no_title) in
    let body_div := find soup "div" (ById "newsct_article") in
    let* body := (if truthy body_div then lift (call_get_text body_div nl)
                  else ret no_body) in
    ret (title, body).
End with_soup.

(** ** JSON values and the Python operations applied to them *)

(** What [json.loads] can return.  A float is kept as the number it was
    read from; the program never computes with it. *)
#[warnings="-register-all"]
Inductive json :=
  | JNull
  | JBool (b : bool)
  | JInt (n : Z)
  | JFloat (literal : string)
  | JStr (s : string)
  | JList (items : list json)
  | JDict (fields : gmap string json).

(** The two library functions the renderer relies on. *)
Class PyJson := {
  (* json.loads(text) *)
  json_loads : string → result json;
  (* str(v) for a float, a list or a dict *)
  py_repr : json → string
}.

(** [str(v)], which is what an f-string hole applies to [v]. *)
Definition py_str {json_lib : PyJson} (v : json) : string :=
  match v with
  | JStr s => s
  | JInt n => str_int n
  | JBool true => "True"
  | JBool false => "False"
  | JNull => "None"
  | _ => py_repr v
  end.

Definition json_is_str (key : string) (v : json) : bool :=
  match v with JStr s => String.eqb key s | _ => false end.

Definition type_name (v : json) : string :=
  match v with
  | JNull => "NoneType" | JBool _ => "bool" | JInt _ => "int"
  | JFloat _ => "float" | JStr _ => "str" | JList _ => "list"
  | JDict _ => "dict"
  end.

(** [key in v] for a string [key]: key membership for a dict, element
    membership for a list, substring test for a string, and a
    [TypeError] for the values that are not containers. *)
Definition py_contains (v : json) (key : string) : result bool :=
  match v with
  | JDict d => Return (bool_decide (is_Some (d !! key)))
  | JList l => Return (existsb (json_is_str key) l)
  | JStr s => Return (str_in key s)
  | _ => Raise (mk_exn TypeError
                  ("argument of type '" +:+ type_name v +:+ "' is not iterable"))
  end.

(** [v[key]] for a string [key]. *)
Definition py_getitem (v : json) (key : string) : result json :=
  match v with
  | JDict d =>
      match d !! key with
      | Some x => Return x
      | None => Raise (mk_exn KeyError key)
      end
  | JList _ =>
      Raise (mk_exn TypeError "list indices must be integers or slices, not str")
  | JStr _ =>
      Raise (mk_exn TypeError "string indices must be integers, not 'str'")
  | _ =>
      Raise (mk_exn TypeError ("'" +:+ type_name v +:+ "' object is not subscriptable"))
  end.

(** [for x in v]: the elements of a list, the keys of a dict, the
    characters of a string.  The keys come in the order of [map_to_list]
    and the characters byte by byte; the renderer fails in the same way
    on the first of them, whichever it is. *)
Definition py_iter (v : json) : result (list json) :=
  match v with
  | JList l => Return l
  | JDict d => Return (JStr <$> (map_to_list d).*1)
  | JStr s => Return ((λ a, JStr (String a EmptyString)) <$> String.list_ascii_of_string s)
  | _ => Raise (mk_exn TypeError ("'" +:+ type_name v +:+ "' object is not iterable"))
  end.

Fixpoint map_M {A B} (f : A → M B) (xs : list A) : M (list B) :=
  match xs with
  | [] => ret []
  | x :: xs' =>
      let* y := f x in
      let* ys := map_M f xs' in
      ret (y :: ys)
  end.

(** ** [convertToHtml] *)

Definition required_keys : list string :=
  ["title"; "summary"; "meaning"; "importance"; "impact_on_us";
   "food_for_thought"; "key_terms"].

Definition msg_missing_key (key : string) : string :=
  "🛑 " +:+ key +:+ " 키가 존재하지 않습니다.".

(** The pieces of the f-string of a key term, between its holes. *)
Definition term_html_0 : string :=
  join nl
   [ EmptyString;
     "                        <li class=" +:+ dq +:+ "border-l-4 border-green-500 pl-4" +:+ dq +:+ ">";
     "                            <strong class=" +:+ dq +:+ "font-bold text-green-700 text-lg block" +:+ dq +:+ ">";
     "                                " ].
Definition term_html_1 : string :=
  join nl
   [ EmptyString;
     "                            </strong>";
     "                            <span class=" +:+ dq +:+ "text-gray-600" +:+ dq +:+ ">";
     "                                " ].
Definition term_html_2 : string :=
  join nl
   [ EmptyString;
     "                            </span>";
     "                        </li>" ].

(** The pieces of the document template, between its holes. *)
Definition html_0 : string :=
  join nl
   [ EmptyString;
     "    <div class=" +:+ dq +:+ "max-w-3xl mx-auto my-8 sm:my-12" +:+ dq +:+ ">";
     "        <div class=" +:+ dq +:+ "bg-white rounded-xl shadow-lg overflow-hidden" +:+ dq +:+ ">";
     "            <div class=" +:+ dq +:+ "p-6 sm:p-10" +:+ dq +:+ ">";
     "                ";
     "                <h1 class=" +:+ dq +:+ "text-3xl sm:text-4xl font-bold text-gray-900 leading-tight mb-4" +:+ dq +:+ ">";
     "                    " ].
Definition html_1 : string :=
  join nl
   [ EmptyString;
     "                </h1>";
     "                ";
     "                <div class=" +:+ dq +:+ "bg-blue-50 border-l-4 border-blue-400 p-4 rounded-r-lg mb-10" +:+ dq +:+ ">";
     "                    <p class=" +:+ dq +:+ "text-base sm:text-lg font-semibold text-blue-800" +:+ dq +:+ ">";
     "                        <span class=" +:+ dq +:+ "font-bold" +:+ dq +:+ ">한 줄 요약!</span>";
     "                        " ].
Definition html_2 : string :=
  join nl
   [ EmptyString;
     "                    </p>";
     "                </div>";
     EmptyString;
     "                <div class=" +:+ dq +:+ "space-y-10" +:+ dq +:+ ">";
     "                    <div>";
     "                        <h2 class=" +:+ dq +:+ "text-2xl font-bold text-gray-800 mb-3 flex items-center" +:+ dq +:+ ">";
     "                            <span class=" +:+ dq +:+ "text-3xl mr-3" +:+ dq +:+ ">💡</span>";
     "                            무슨 뜻일까요?";
     "                        </h2>";
     "                        <p class=" +:+ dq +:+ "text-gray-700 text-base sm:text-lg leading-relaxed" +:+ dq +:+ ">";
     "                            " ].
Definition html_3 : string :=
  join nl
   [ EmptyString;
     "                        </p>";
     "                    </div>";
     EmptyString;
     "                    <div>";
     "                        <h2 class=" +:+ dq +:+ "text-2xl font-bold text-gray-800 mb-3 flex items-center" +:+ dq +:+ ">";
     "                            <span class=" +:+ dq +:+ "text-3xl mr-3" +:+ dq +:+ ">🌍</span>";
     "                            이게 왜 중요할까요?";
     "                        </h2>";
     "                        <p class=" +:+ dq +:+ "text-gray-700 text-base sm:text-lg leading-relaxed" +:+ dq +:+ ">";
     "                            " ].
Definition html_4 : string :=
  join nl
   [ EmptyString;
     "                        </p>";
     "                    </div>";
     EmptyString;
     "                    <div>";
     "                        <h2 class=" +:+ dq +:+ "text-2xl font-bold text-gray-800 mb-3 flex items-center" +:+ dq +:+ ">";
     "                            <span class=" +:+ dq +:+ "text-3xl mr-3" +:+ dq +:+ ">👨‍👩‍👧‍👦</span>";
     "                            나와 우리 가족에게는?";
     "                        </h2>";
     "                        <p class=" +:+ dq +:+ "text-gray-700 text-base sm:text-lg leading-relaxed" +:+ dq +:+ ">";
     "                            " ].
Definition html_5 : string :=
  join nl
   [ EmptyString;
     "                        </p>";
     "                    </div>";
     EmptyString;
     "                    <div class=" +:+ dq +:+ "bg-yellow-50 border-2 border-dashed border-yellow-400 p-6 rounded-lg" +:+ dq +:+ ">";
     "                        <h2 class=" +:+ dq +:+ "text-xl font-bold text-yellow-900 mb-3 flex items-center" +:+ dq +:+ ">";
     "                            <span class=" +:+ dq +:+ "text-2xl mr-3" +:+ dq +:+ ">🤔</span>";
     "                            슬기롭게 생각해 보기";
     "                        </h2>";
     "                        <p class=" +:+ dq +:+ "text-yellow-800 text-base sm:text-lg leading-relaxed" +:+ dq +:+ ">";
     "                            " ].
Definition html_6 : string :=
  join nl
   [ EmptyString;
     "                        </p>";
     "                    </div>";
     EmptyString;
     "                </div>";
     EmptyString;
     "                <hr class=" +:+ dq +:+ "my-10 border-gray-200" +:+ dq +:+ ">";
     EmptyString;
     "                <div class=" +:+ dq +:+ "bg-gray-50 p-6 rounded-lg" +:+ dq +:+ ">";
     "                    <h2 class=" +:+ dq +:+ "text-2xl font-bold text-gray-800 mb-5 flex items-center" +:+ dq +:+ ">";
     "                        <span class=" +:+ dq +:+ "text-3xl mr-3" +:+ dq +:+ ">🔍</span>";
     "                        오늘의 경제 용어 돋보기";
     "                    </h2>";
     "                    <ul class=" +:+ dq +:+ "space-y-4" +:+ dq +:+ ">";
     "                        " ].
Definition html_7 : string :=
  join nl
   [ EmptyString;
     "                    </ul>";
     "                </div>";
     EmptyString;
     "                <hr class=" +:+ dq +:+ "my-8 border-gray-200" +:+ dq +:+ ">";
     EmptyString;
     "                <div class=" +:+ dq +:+ "text-center" +:+ dq +:+ ">";
     "                    <a href=" +:+ dq ].
Definition html_8 : string :=
  join nl
   [ dq +:+ " ";
     "                       target=" +:+ dq +:+ "_blank" +:+ dq +:+ " ";
     "                       rel=" +:+ dq +:+ "noopener noreferrer" +:+ dq;
     "                       class=" +:+ dq +:+ "inline-flex items-center px-6 py-3 bg-blue-600 text-white font-semibold rounded-lg hover:bg-blue-700 transition-colors duration-200 shadow-md hover:shadow-lg" +:+ dq +:+ ">";
     "                        <span class=" +:+ dq +:+ "text-xl mr-2" +:+ dq +:+ ">📰</span>";
     "                        뉴스 원본 보기";
     "                        <span class=" +:+ dq +:+ "ml-2" +:+ dq +:+ ">↗</span>";
     "                    </a>";
     "                </div>";
     EmptyString;
     "            </div>";
     "        </div>";
     "    </div>";
     "    " ].

Section with_json.
Context {json_lib : PyJson}.

(** The body of the loop over [required_keys]. *)
Definition check_key (json_response : json) (key : string) : M (option unit) :=
  let* present := lift (py_contains json_response key) in
  if negb present then raise (mk_exn Exception (msg_missing_key key))
  else ret None.

Definition term_html (term_info : json) : M string :=
  let* term := lift (py_getitem term_info "term") in
  let* definition := lift (py_getitem term_info "definition") in
  ret (term_html_0 +:+ py_str term +:+ term_html_1 +:+
       py_str definition +:+ term_html_2).

Definition generate_key_terms_html (key_terms : json) : M string :=
  let* items := lift (py_iter key_terms) in
  let* terms_html := map_M term_html items in
  ret (join EmptyString terms_html).

Definition render_template (json_response : json) (article_url : string)
  : M string :=
  let* title := lift (py_getitem json_response "title") in
  let* summary := lift (py_getitem json_response "summary") in
  let* meaning := lift (py_getitem json_response "meaning") in
  let* importance := lift (py_getitem json_response "importance") in
  let* impact_on_us := lift (py_getitem json_response "impact_on_us") in
  let* food_for_thought := lift (py_getitem json_response "food_for_thought") in
  let* key_terms := lift (py_getitem json_response "key_terms") in
  let* key_terms_html := generate_key_terms_html key_terms in
  ret (html_0 +:+ py_str title +:+
       html_1 +:+ py_str summary +:+
       html_2 +:+ py_str meaning +:+
       html_3 +:+ py_str importance +:+
       html_4 +:+ py_str impact_on_us +:+
       html_5 +:+ py_str food_for_thought +:+
       html_6 +:+ key_terms_html +:+
       html_7 +:+ article_url +:+
       html_8).

Definition convertToHtml (response article_url : string) : M string :=
  let* json_response := lift (json_loads response) in
  for_each required_keys (check_key json_response) ;;;
  render_template json_response article_url.
End with_json.

(** ** The script body ([if __name__ == "__main__"]) *)

Definition required_env_vars : list string :=
  ["PRESS_CODE"; "GOOGLE_API_KEY"; "GEMINI_MODEL"; "BASE_URL";
   "TELEGRAM_CHAT_TEST_ID"; "TELEGRAM_CHAT_ID"; "TELEGRAM_BOT_TOKEN"].

(** [os.getenv(var)] *)
Definition getenv (w : World) (var : string) : option string := environ w !! var.

(** Truth value of [os.getenv(var)]: [None] and the empty string are
    falsy. *)
Definition truthy_str (o : option string) : bool :=
  match o with
  | Some s => negb (String.eqb s EmptyString)
  | None => false
  end.

(** The list built by the loop of lines 256-259. *)
Definition missing_vars (w : World) : list string :=
  List.filter (λ var, negb (truthy_str (getenv w var))) required_env_vars.

Definition msg_missing_env (missing : list string) : string :=
  "🛑 필수 환경변수가 설정되지 않았습니다: " +:+ join ", " missing.

(** [str(x)] of a value that may be [None]. *)
Definition str_opt (o : option string) : string := default "None" o.

(** [os.path.join(dir, 'img', 'main.png')] *)
Definition thumbnail_path (dir : string) : string :=
  (if String.eqb dir EmptyString then EmptyString
   else if str_in "/" (String.substring (String.length dir - 1) 1 dir) then dir
   else dir +:+ "/") +:+ "img/main.png".

Definition msg_api_error (message : string) : string :=
  "❌ [ai-news-explainer] API 오류 발생" +:+ nl +:+ nl +:+ message.

Section with_libraries.
Context {tag : Type} {soup_lib : Soup tag} {json_lib : PyJson}.

(** Lines 298-312: the post, with its own handler for [ApiError]. *)
Definition publish (w : World) (today html_response : string) : M unit :=
  let p := {| post_title := today +:+ " 오늘의 어린이 뉴스";
              post_content := html_response;
              post_category := "어린이뉴스";
              post_writer := "admin";
              post_image_paths := [];
              post_thumbnail := thumbnail_path (script_dir w) |} in
  try_except
    (logger INFO "API 포스트 생성 시작" ;;;
     emit (CreatePost p) ;;;
     lift (create_post w p) ;;;
     logger INFO "API 포스트 생성 완료")
    (λ e,
       match exn_cls e with
       | ApiError =>
           let error_message := msg_api_error (exn_arg e) in
           emit (TelegramTest error_message) ;;;
           lift (send_test_message w error_message) ;;;
           logger ERROR ("API 포스트 생성 오류: " +:+ exn_arg e)
       | _ => raise e
       end).

(** Lines 279-312: the body of the outer [try]. *)
Definition pipeline (w : World) (press_code : option string)
    (today today_str user_agent : string) : M unit :=
  let* article_url := getFirstArticleUrl w (str_opt press_code) today_str user_agent in
  logger INFO ("✅ 기사 링크: " +:+ article_url) ;;;
  let* tb := getArticleContent w article_url user_agent in
  let title := tb.1 in
  let body := tb.2 in
  logger INFO (nl +:+ "📰 [기사 제목] " +:+ nl +:+ title) ;;;
  logger INFO (nl +:+ "📝 [본문 내용] " +:+ nl +:+ body) ;;;
  let* response := getGeminiResponse w title body default_max_retries
                     default_retry_delay default_success_delay in
  match response with
  | None =>
      logger ERROR "❌ Gemini API 호출 실패" ;;;
      raise (mk_exn Exception "Gemini API 호출 실패")
  | Some response =>
      logger INFO (nl +:+ "📝 [Gemini 응답] " +:+ nl +:+ response) ;;;
      let* html_response := convertToHtml response article_url in
      logger INFO (nl +:+ "📝 [HTML 응답] " +:+ nl +:+ html_response) ;;;
      publish w today html_response
  end.

(** Lines 245-316 in the runs in which the set-up calls of lines 240-243
    and 267-275 complete: the logger and [load_dotenv()] before the check
    of the environment, [ApiUtil()], [TelegramUtil()], [UserAgent()] and
    [ua.random] after it.  The script with these calls able to fail is
    [script] below. *)
Definition main (w : World) : M unit :=
  let missing := missing_vars w in
  if negb (bool_decide (missing = [])) then
    let error_message := msg_missing_env missing in
    logger ERROR error_message ;;;
    raise (mk_exn ValueError error_message)
  else
    let press_code := getenv w "PRESS_CODE" in
    let today := today_dashed w in
    let today_str := today_compact w in
    let user_agent := ua_random w in
    try_except
      (pipeline w press_code today today_str user_agent)
      (λ e, logger ERROR ("❌ 에러 발생: " +:+ str_exn e)).

(** The set-up calls of the script body, each of which returns or
    raises.  They are outside the [try] of line 278. *)
Record Startup := mk_startup {
  (* LoggerUtil().get_logger(), line 240 *)
  logger_util : result unit;
  (* load_dotenv(), line 243 *)
  load_dotenv : result unit;
  (* ApiUtil(), line 267 *)
  api_util : result unit;
  (* TelegramUtil(), line 268 *)
  telegram_util : result unit;
  (* UserAgent() and ua.random, lines 274-275 *)
  user_agent : result string
}.

(** Lines 239-316, the whole script body.  [environ w] is the
    environment as [load_dotenv()] leaves it. *)
Definition script (s : Startup) (w : World) : M unit :=
  lift (logger_util s) ;;;
  lift (load_dotenv s) ;;;
  let missing := missing_vars w in
  if negb (bool_decide (missing = [])) then
    let error_message := msg_missing_env missing in
    logger ERROR error_message ;;;
    raise (mk_exn ValueError error_message)
  else
    lift (api_util s) ;;;
    lift (telegram_util s) ;;;
    let press_code := getenv w "PRESS_CODE" in
    let today := today_dashed w in
    let today_str := today_compact w in
    let* ua := lift (user_agent s) in
    try_except
      (pipeline w press_code today today_str ua)
      (λ e, logger ERROR ("❌ 에러 발생: " +:+ str_exn e)).
End with_libraries.

(** ** A small document model implementing the parser interface

    It is used to run the fetch functions on concrete pages.  The
    markup-to-tree step is a table given by the caller. *)

Module Dom.
#[warnings="-register-all"]
Inductive node :=
  | Elem (name : string) (classes : list string)
         (attrs : list (string * string)) (children : list node)
  | Text (s : string).

Fixpoint assoc (key : string) (kvs : list (string * string)) : option string :=
  match kvs with
  | [] => None
  | (k, v) :: kvs' => if String.eqb k key then Some v else assoc key kvs'
  end.

(** A [class_] filter matches one of the classes or the whole class
    string; an [id] filter matches the [id] attribute. *)
Definition matches (name : string) (f : attr_filter) (n : node) : bool :=
  match n with
  | Elem nm cls attrs _ =>
      String.eqb nm name &&
      match f with
      | ByClass c => existsb (String.eqb c) cls || String.eqb c (join " " cls)
      | ById i => match assoc "id" attrs with
                  | Some v => String.eqb v i
                  | None => false
                  end
      | NoFilter => true
      end
  | Text _ => false
  end.

(** First match in document order among [n] and its descendants. *)
Fixpoint first_match (name : string) (f : attr_filter) (n : node) : option node :=
  if matches name f n then Some n
  else match n with
       | Elem _ _ _ kids =>
           (fix go (ks : list node) : option node :=
              match ks with
              | [] => None
              | k :: ks' =>
                  match first_match name f k with
                  | Some r => Some r
                  | None => go ks'
                  end
              end) kids
       | Text _ => None
       end.

Fixpoint first_of (name : string) (f : attr_filter) (ks : list node) : option node :=
  match ks with
  | [] => None
  | k :: ks' =>
      match first_match name f k with
      | Some r => Some r
      | None => first_of name f ks'
      end
  end.

(** [n.find(name, ...)] searches the descendants of [n]. *)
Definition find_desc (n : node) (name : string) (f : attr_filter) : option node :=
  match n with
  | Elem _ _ _ kids => first_of name f kids
  | Text _ => None
  end.

(** Strings are UTF-8 byte strings; [chars] cuts one into its
    characters, a lead byte with the continuation bytes after it. *)
Definition is_continuation (a : Ascii.ascii) : bool :=
  let n := Ascii.nat_of_ascii a in bool_decide (128 ≤ n < 192)%nat.

Fixpoint chars_from (s : string) : string * list string :=
  match s with
  | EmptyString => (EmptyString, [])
  | String a s' =>
      let (pending, cs) := chars_from s' in
      if is_continuation a then (String a pending, cs)
      else (EmptyString, String a pending :: cs)
  end.

Definition chars (s : string) : list string :=
  let (pending, cs) := chars_from s in
  if String.eqb pending EmptyString then cs else pending :: cs.

Definition utf8 (bytes : list nat) : string :=
  String.string_of_list_ascii (Ascii.ascii_of_nat <$> bytes).

(** The characters for which [str.isspace()] holds, which [str.strip()]
    removes: U+0009-000D, U+001C-0020, U+0085, U+00A0, U+1680,
    U+2000-200A, U+2028, U+2029, U+202F, U+205F, U+3000. *)
Definition spaces : list string :=
  ((utf8 <$> [[9]; [10]; [11]; [12]; [13]; [28]; [29]; [30]; [31]; [32];
              [194; 133]; [194; 160]; [225; 154; 128]])
   ++ ((λ k, utf8 [226; 128; 128 + k]) <$> seq 0 11)
   ++ (utf8 <$> [[226; 128; 168]; [226; 128; 169]; [226; 128; 175];
                 [226; 129; 159]; [227; 128; 128]]))%nat%list.

Definition is_space (c : string) : bool := existsb (String.eqb c) spaces.

Fixpoint lstrip (cs : list string) : list string :=
  match cs with
  | c :: cs' => if is_space c then lstrip cs' else cs
  | [] => []
  end.

(** [s.strip()] *)
Definition strip (s : string) : string :=
  String.concat EmptyString (rev (lstrip (rev (lstrip (chars s))))).

(** The text of a [script], [style] or [template] element is not among
    the strings that [get_text] of an enclosing element collects. *)
Definition is_raw_text (n : node) : bool :=
  match n with
  | Elem name _ _ _ => existsb (String.eqb name) ["script"; "style"; "template"]
  | Text _ => false
  end.

(** The stripped, non-empty text pieces below [n], in document order. *)
Fixpoint pieces (n : node) : list string :=
  match n with
  | Text s => let s' := strip s in
              if String.eqb s' EmptyString then [] else [s']
  | Elem _ _ _ kids =>
      flat_map (λ k, if is_raw_text k then [] else pieces k) kids
  end.

Definition attr_of (n : node) (key : string) : option string :=
  match n with
  | Elem _ cls attrs _ =>
      if String.eqb key "class"
      then (if bool_decide (cls = []) then None else Some (join " " cls))
      else assoc key attrs
  | Text _ => None
  end.

Definition soup (parse : string → node) : Soup node :=
  {| BeautifulSoup := parse;
     find := find_desc;
     get_attr := attr_of;
     get_text := λ n sep, join sep (pieces n) |}.
End Dom.

(** A [json.loads] given by a table of the texts it accepts. *)
Definition table_json (tbl : list (string * json)) : PyJson :=
  {| json_loads := λ s,
       match List.find (λ kv, String.eqb kv.1 s) tbl with
       | Some kv => Return kv.2
       | None => Raise (mk_exn JSONDecodeError "Expecting value")
       end;
     py_repr := λ _, "<repr>" |}.

(** ** Vocabulary of the properties *)

(** The events of one attempt that fails with a transient error and is
    followed by its backoff sleep: the call, the warning, the sleep. *)
Definition backoff_round (req : request) (max_retries retry_delay attempt : Z)
  : list event :=
  [GenerateContent req;
   Log WARNING (msg_overloaded (retry_delay * 2 ^ attempt) attempt max_retries);
   Sleep (retry_delay * 2 ^ attempt)].

(** The events of the attempts [a], ..., [a + n - 1] when each of them
    goes that way. *)
Definition backoff_events (req : request) (max_retries retry_delay : Z)
    (a n : nat) : list event :=
  flat_map (backoff_round req max_retries retry_delay) (Z.of_nat <$> seq a n).

(** A duration that [time.sleep] accepts. *)
Definition sleepable (secs : Z) : Prop := 0 ≤ secs ≤ sleep_max.

(** Every set-up call of the script body returns. *)
Definition startup_completes (s : Startup) : Prop :=
  logger_util s = Return tt ∧ load_dotenv s = Return tt ∧ api_util s = Return tt
  ∧ telegram_util s = Return tt ∧ ∃ ua, user_agent s = Return ua.




(** A computation that neither reads nor extends the event log. *)
Definition pure_m {A} (m : M A) : Prop := ∃ r, ∀ t, m t = (t, r).

(** A JSON value is an object that has the field [k]. *)
Definition has_field (v : json) (k : string) : Prop :=
  match v with
  | JDict m => is_Some (m !! k)
  | _ => False
  end.

Definition is_object (v : json) : Prop :=
  match v with JDict _ => True | _ => False end.

(** A key-term entry without a 'term' or without a 'definition'. *)
Definition entry_lacks (v : json) : Prop :=
  ¬ has_field v "term" ∨ ¬ has_field v "definition".

(** A key-term entry that has both fields. *)
Definition complete_entry (v : json) : Prop :=
  has_field v "term" ∧ has_field v "definition".

(** The errors Python raises by itself from [v[key]]. *)
Definition raw_lookup_error (e : exn) : Prop :=
  exn_cls e = KeyError ∨ exn_cls e = TypeError.

Section fetch_vocabulary.
Context {tag : Type} {soup_lib : Soup tag}.

(** The lookup chain of [getFirstArticleUrl] is broken at some node: the
    front-page section, its article list, the first item of the list, the
    anchor of the item, or the link attribute of the anchor. *)
Inductive chain_broken (soup : tag) : Prop :=
  | missing_section :
      find soup "div" (ByClass "newspaper_brick_item _start_page") = None →
      chain_broken soup
  | missing_list brick :
      find soup "div" (ByClass "newspaper_brick_item _start_page") = Some brick →
      find brick "ul" (ByClass "newspaper_article_lst") = None →
      chain_broken soup
  | empty_list brick ul :
      find soup "div" (ByClass "newspaper_brick_item _start_page") = Some brick →
      find brick "ul" (ByClass "newspaper_article_lst") = Some ul →
      find ul "li" NoFilter = None →
      chain_broken soup
  | missing_anchor brick ul li :
      find soup "div" (ByClass "newspaper_brick_item _start_page") = Some brick →
      find brick "ul" (ByClass "newspaper_article_lst") = Some ul →
      find ul "li" NoFilter = Some li →
      find li "a" NoFilter = None →
      chain_broken soup
  | anchor_without_href brick ul li a :
      find soup "div" (ByClass "newspaper_brick_item _start_page") = Some brick →
      find brick "ul" (ByClass "newspaper_article_lst") = Some ul →
      find ul "li" NoFilter = Some li →
      find li "a" NoFilter = Some a →
      get_attr a "href" = None →
      chain_broken soup.

(** The class of faults raised by using [None] as an object. *)
Definition null_fault (e : exn) : Prop :=
  exn_cls e = AttributeError ∨ exn_cls e = TypeError.


(** The link at the end of the lookup chain: the [href] of the first
    anchor of the first item of the article list of the front-page
    section, when every node of the chain is there. *)
Definition first_link (soup : tag) : option string :=
  brick ← find soup "div" (ByClass "newspaper_brick_item _start_page");
  ul ← find brick "ul" (ByClass "newspaper_article_lst");
  li ← find ul "li" NoFilter;
  a ← find li "a" NoFilter;
  get_attr a "href".

(** The title and the body read off a parsed article page. *)
Definition article_title (soup : tag) : string :=
  match find soup "div" (ByClass "media_end_head_title") with
  | Some d => get_text d EmptyString
  | None => no_title
  end.

Definition article_body (soup : tag) : string :=
  match find soup "div" (ById "newsct_article") with
  | Some d => get_text d nl
  | None => no_body
  end.
End fetch_vocabulary.

(** ** Measures on the event log *)

(** The seconds slept according to the log. *)
Definition total_sleep (evs : list event) : Z :=
  fold_right (λ e acc, match e with Sleep secs => secs + acc | _ => acc end) 0 evs.

(** The number of calls of the model in the log. *)
Definition count_calls (evs : list event) : nat :=
  length (List.filter is_model_call evs).

(** [needle] occurs in [hay]: some text before it and some text after it
    make up [hay]. *)
Definition occurs_in (needle hay : string) : Prop :=
  ∃ before after, hay = before +:+ needle +:+ after.

(** A computation only appends to the log, and every event it appends
    satisfies [P]. *)
Definition appends {A} (P : event → Prop) (m : M A) : Prop :=
  ∀ t, ∃ evs, (m t).1 = (t ++ evs)%list ∧ Forall P evs.

(** ** What the script may post and notify *)

(** The post that [publish] builds from the date and the document. *)
Definition post_of (w : World) (today html_response : string) : post :=
  {| post_title := today +:+ " 오늘의 어린이 뉴스";
     post_content := html_response;
     post_category := "어린이뉴스";
     post_writer := "admin";
     post_image_paths := [];
     post_thumbnail := thumbnail_path (script_dir w) |}.

(** The events of the stages before the post, when each of them goes
    through on the first try: the two requests, the model call with its
    success sleep, and the log records in between. *)
Definition happy_prefix (w : World) (listing url title body sys response html : string)
  : list event :=
  [HttpGet listing (ua_random w);
   Log INFO ("✅ 기사 링크: " +:+ url);
   HttpGet url (ua_random w);
   Log INFO (nl +:+ "📰 [기사 제목] " +:+ nl +:+ title);
   Log INFO (nl +:+ "📝 [본문 내용] " +:+ nl +:+ body);
   GenerateContent (gemini_request w title body sys);
   Sleep default_success_delay;
   Log INFO msg_success;
   Log INFO (nl +:+ "📝 [Gemini 응답] " +:+ nl +:+ response);
   Log INFO (nl +:+ "📝 [HTML 응답] " +:+ nl +:+ html)].

Section main_vocabulary.
Context {json_lib : PyJson}.

(** A post in the log carries a document that [convertToHtml] returned. *)
Definition post_event_ok (w : World) (today : string) (e : event) : Prop :=
  ∀ p, e = CreatePost p →
       ∃ response url html,
         (convertToHtml response url []).2 = Return html
         ∧ p = post_of w today html.

(** A notification in the log reports an [ApiError] of the post API. *)
Definition notify_event_ok (w : World) (e : event) : Prop :=
  ∀ msg, e = TelegramTest msg →
         ∃ p err, create_post w p = Raise err
                  ∧ exn_cls err = ApiError
                  ∧ msg = msg_api_error (exn_arg err).
End main_vocabulary.

(** ** Concrete worlds, payloads and pages *)

(** A world whose model behaves as [gen] and whose prompt file is
    [prompt]; the listing page and the article page are served by [pages]. *)
Definition world_of (env : gmap string string) (pages : string → result response)
    (prompt : option string) (gen : nat → result string) : World :=
  {| environ := env;
     requests_get := λ url _, pages url;
     prompt_md := prompt;
     generate_content := λ k _, gen k;
     create_post := λ _, Return tt;
     send_test_message := λ _, Return tt;
     today_dashed := "2025-01-02";
     today_compact := "20250102";
     ua_random := "Mozilla/5.0";
     script_dir := "/app" |}.

Definition no_pages : string → result response :=
  λ _, Raise (mk_exn OtherError "connection refused").

Definition overloaded : exn := mk_exn OtherError "503 UNAVAILABLE. The model is overloaded.".
Definition bad_request : exn := mk_exn OtherError "400 INVALID_ARGUMENT. API key not valid.".

(** The variables that [getGeminiResponse] reads. *)
Definition env_gemini : gmap string string :=
  <["GOOGLE_API_KEY" := "key"]> (<["GEMINI_MODEL" := "gemini-2.0-flash"]> ∅).

(** The model is overloaded on every call. *)
Definition w_overloaded : World :=
  world_of env_gemini no_pages (Some "PROMPT") (λ _, Raise overloaded).

(** The model rejects the first call with a non-transient error. *)
Definition w_rejected : World :=
  world_of env_gemini no_pages (Some "PROMPT") (λ _, Raise bad_request).

(** The model is overloaded once and then answers. *)
Definition w_second_try : World :=
  world_of env_gemini no_pages (Some "PROMPT")
    (λ k, match k with O => Raise overloaded | _ => Return "{}" end).


(** GOOGLE_API_KEY is not set. *)
Definition w_no_key : World :=
  world_of ∅ no_pages (Some "PROMPT") (λ _, Return "{}").

(** Payloads for the renderer. *)
Definition payload_no_meaning : gmap string json :=
  <["title" := JStr "T"]> (<["summary" := JStr "S"]>
  (<["importance" := JStr "I"]> (<["key_terms" := JList []]> ∅))).

Definition payload_with_terms (terms : list json) : gmap string json :=
  <["title" := JStr "T"]> (<["summary" := JStr "S"]> (<["meaning" := JStr "M"]>
  (<["importance" := JStr "I"]> (<["impact_on_us" := JStr "U"]>
  (<["food_for_thought" := JStr "F"]> (<["key_terms" := JList terms]> ∅)))))).

Definition term_without_definition : json := JDict (<["term" := JStr "GDP"]> ∅).
Definition term_complete : json :=
  JDict (<["term" := JStr "GDP"]> (<["definition" := JStr "..."]> ∅)).

Definition json_examples : PyJson :=
  table_json
    [("null", JNull);
     ("[" +:+ dq +:+ "title" +:+ dq +:+ "]", JList [JStr "title"]);
     ("no-meaning", JDict payload_no_meaning);
     ("bad-term", JDict (payload_with_terms [term_complete; term_without_definition]));
     ("complete", JDict (payload_with_terms [term_complete]))].

(** Front pages and article pages, as trees. *)
Definition brick (kids : list Dom.node) : Dom.node :=
  Dom.Elem "div" ["newspaper_brick_item"; "_start_page"] [] kids.
Definition article_list (kids : list Dom.node) : Dom.node :=
  Dom.Elem "ul" ["newspaper_article_lst"] [] kids.
Definition document (kids : list Dom.node) : Dom.node :=
  Dom.Elem "[document]" [] [] kids.

Definition page_no_section : Dom.node :=
  document [Dom.Elem "div" ["newspaper_wrp"] [] [article_list []]].
Definition page_no_list : Dom.node :=
  document [brick [Dom.Elem "ul" ["other"] [] []]].
Definition page_empty_list : Dom.node :=
  document [brick [article_list []]].
Definition page_no_anchor : Dom.node :=
  document [brick [article_list [Dom.Elem "li" [] [] [Dom.Text "headline"]]]].
Definition page_no_href : Dom.node :=
  document [brick [article_list
    [Dom.Elem "li" [] [] [Dom.Elem "a" [] [("name", "top")] [Dom.Text "headline"]];
     Dom.Elem "li" [] [] [Dom.Elem "a" [] [("href", "https://example.com/a2")] []]]]].
Definition page_listing : Dom.node :=
  document [brick [article_list
    [Dom.Elem "li" [] [] [Dom.Elem "a" [] [("href", "https://example.com/a1")] []]]]].
Definition page_article : Dom.node :=
  document
    [Dom.Elem "div" ["media_end_head_title"] [] [Dom.Text "  테스트 제목 "];
     Dom.Elem "div" [] [("id", "newsct_article")]
       [Dom.Text "본문1"; Dom.Elem "br" [] [] []; Dom.Text " 본문2 "]].
Definition page_bare : Dom.node :=
  document [Dom.Elem "p" [] [] [Dom.Text "404"]].

Definition parse_examples (markup : string) : Dom.node :=
  if String.eqb markup "no-section" then page_no_section
  else if String.eqb markup "no-list" then page_no_list
  else if String.eqb markup "empty-list" then page_empty_list
  else if String.eqb markup "no-anchor" then page_no_anchor
  else if String.eqb markup "no-href" then page_no_href
  else if String.eqb markup "listing" then page_listing
  else if String.eqb markup "article" then page_article
  else page_bare.

Definition soup_examples : Soup Dom.node := Dom.soup parse_examples.

(** Every URL answers 200 with the given markup. *)
Definition serve (markup : string) : string → result response :=
  λ _, Return {| status_code := 200; text := markup |}.

Definition w_page (markup : string) : World :=
  world_of ∅ (serve markup) (Some "PROMPT") (λ _, Return "{}").

(** Only PRESS_CODE is set, and BASE_URL is set to the empty string. *)
Definition w_env_missing : World :=
  world_of (<["PRESS_CODE" := "015"]> (<["BASE_URL" := EmptyString]> ∅))
    (serve "listing") (Some "PROMPT") (λ _, Return "{}").

(** A world in which every stage goes through: the seven variables are
    set, the listing page links to the article page, the model answers
    the complete payload at once and the post API accepts the post. *)
Definition env_complete : gmap string string :=
  <["PRESS_CODE" := "015"]> (<["GOOGLE_API_KEY" := "key"]>
  (<["GEMINI_MODEL" := "gemini-2.0-flash"]> (<["BASE_URL" := "https://blog.example.com"]>
  (<["TELEGRAM_CHAT_TEST_ID" := "1"]> (<["TELEGRAM_CHAT_ID" := "2"]>
  (<["TELEGRAM_BOT_TOKEN" := "token"]> ∅)))))).

Definition pages_happy (url : string) : result response :=
  if String.eqb url (listing_url "015" "20250102")
  then Return {| status_code := 200; text := "listing" |}
  else if String.eqb url "https://example.com/a1"
  then Return {| status_code := 200; text := "article" |}
  else Return {| status_code := 404; text := "bare" |}.

Definition w_happy : World :=
  world_of env_complete pages_happy (Some "PROMPT") (λ _, Return "complete").

(** The post API rejects the post with its own error class. *)
Definition w_api_error : World :=
  {| environ := env_complete;
     requests_get := λ url _, pages_happy url;
     prompt_md := Some "PROMPT";
     generate_content := λ _ _, Return "complete";
     create_post := λ _, Raise (mk_exn ApiError "HTTP 500");
     send_test_message := λ _, Return tt;
     today_dashed := "2025-01-02";
     today_compact := "20250102";
     ua_random := "Mozilla/5.0";
     script_dir := "/app" |}.

(** The pages are served but the model rejects the request. *)
Definition w_summary_fails : World :=
  world_of env_complete pages_happy (Some "PROMPT") (λ _, Raise bad_request).

(** The listing page answers 404. *)
Definition w_listing_404 : World :=
  world_of env_complete (λ _, Return {| status_code := 404; text := "bare" |})
    (Some "PROMPT") (λ _, Return "complete").

(** Set-up calls that all complete, and set-up calls of which the
    constructor of the post client fails. *)
Definition startup_ok : Startup :=
  {| logger_util := Return tt; load_dotenv := Return tt; api_util := Return tt;
     telegram_util := Return tt; user_agent := Return "Mozilla/5.0" |}.

Definition startup_no_api : Startup :=
  {| logger_util := Return tt; load_dotenv := Return tt;
     api_util := Raise (mk_exn OtherError "ApiUtil");
     telegram_util := Return tt; user_agent := Return "Mozilla/5.0" |}.

(** The document of the complete example payload. *)
Definition html_complete : string :=
  match (convertToHtml (json_lib:=json_examples) "complete"
           "https://example.com/a1" []).2 with
  | Return html => html
  | Raise _ => EmptyString
  end.

(** * Properties *)

(** ** The retry loop of [getGeminiResponse] *)

Ltac run_m :=
  unfold bind, ret, raise, emit, lift, logger, try_except; simpl.

Lemma sleep_message_fatal :
  is_transient (str_exn (mk_exn ValueError "sleep length must be non-negative")) = false.
Proof. vm_compute. reflexivity. Qed.

Lemma overflow_message_fatal :
  is_transient
    (str_exn (mk_exn OverflowError "timestamp too large to convert to C _PyTime_t"))
  = false.
Proof. vm_compute. reflexivity. Qed.

Lemma time_sleep_ok (secs : Z) (t : list event) :
  sleepable secs → time_sleep secs t = ((t ++ [Sleep secs])%list, Return tt).
Proof.
  intros [H0 Hmax]. unfold time_sleep.
  destruct (Z.ltb_spec secs (- sleep_max)); [unfold sleep_max in *; lia|].
  destruct (Z.ltb_spec sleep_max secs); [lia|].
  destruct (Z.ltb_spec secs 0); [lia|]. reflexivity.
Qed.

Lemma time_sleep_negative (secs : Z) (t : list event) :
  - sleep_max ≤ secs < 0 →
  time_sleep secs t
  = (t, Raise (mk_exn ValueError "sleep length must be non-negative")).
Proof.
  intros [Hmin Hneg]. unfold time_sleep.
  destruct (Z.ltb_spec secs (- sleep_max)); [lia|].
  destruct (Z.ltb_spec sleep_max secs); [unfold sleep_max in *; lia|].
  destruct (Z.ltb_spec secs 0); [|lia]. reflexivity.
Qed.

Lemma time_sleep_overflow (secs : Z) (t : list event) :
  secs < - sleep_max ∨ sleep_max < secs →
  time_sleep secs t
  = (t, Raise (mk_exn OverflowError "timestamp too large to convert to C _PyTime_t")).
Proof.
  intros Hout. unfold time_sleep.
  destruct (Z.ltb_spec secs (- sleep_max)); [reflexivity|].
  destruct (Z.ltb_spec sleep_max secs); [reflexivity|]. lia.
Qed.

(** [time.sleep] either sleeps, or raises an error that the handler of
    the retry loop does not take for transient. *)
Lemma time_sleep_cases (secs : Z) (t : list event) :
  (sleepable secs ∧ time_sleep secs t = ((t ++ [Sleep secs])%list, Return tt))
  ∨ (¬ sleepable secs
     ∧ ∃ e, time_sleep secs t = (t, Raise e) ∧ is_transient (str_exn e) = false).
Proof.
  destruct (decide (secs < - sleep_max ∨ sleep_max < secs)) as [Hout|Hin].
  - right. split; [unfold sleepable; lia|].
    eexists. split; [apply time_sleep_overflow, Hout | apply overflow_message_fatal].
  - destruct (decide (secs < 0)) as [Hneg|Hpos].
    + right. split; [unfold sleepable; lia|].
      eexists. split; [apply time_sleep_negative; lia | apply sleep_message_fatal].
    + left. assert (sleepable secs) by (unfold sleepable; lia).
      split; [assumption | apply time_sleep_ok; assumption].
Qed.


Section gemini_facts.
Variables (w : World) (req : request).
Variables (max_retries retry_delay success_delay : Z).

Local Abbreviation attempt_ := (gemini_attempt w req max_retries retry_delay success_delay).
Local Abbreviation loop_ := (gemini_loop w req max_retries retry_delay success_delay).

Lemma attempt_success (a : nat) (s : string) (t : list event) :
  generate_content w a req = Return s →
  sleepable success_delay →
  attempt_ (Z.of_nat a) t
  = ((t ++ [GenerateContent req; Sleep success_delay; Log INFO msg_success])%list,
     Return (Some (Some s))).
Proof.
  intros Hgen Hsd.
  unfold gemini_attempt, gemini_try. rewrite Nat2Z.id.
  unfold try_except, bind, emit, lift. rewrite Hgen.
  rewrite (time_sleep_ok _ _ Hsd). unfold logger, emit, ret.
  rewrite <- !app_assoc. reflexivity.
Qed.

(** A call that answers but whose success sleep raises [e]. *)
Lemma attempt_success_unslept (a : nat) (s : string) (e : exn) (t : list event) :
  generate_content w a req = Return s →
  time_sleep success_delay (t ++ [GenerateContent req])%list
  = ((t ++ [GenerateContent req])%list, Raise e) →
  is_transient (str_exn e) = false →
  attempt_ (Z.of_nat a) t
  = ((t ++ [GenerateContent req; Log ERROR (msg_unexpected (str_exn e))])%list,
     Return (Some None)).
Proof.
  intros Hgen Hsleep Hcls.
  unfold gemini_attempt, gemini_try. rewrite Nat2Z.id.
  unfold try_except, bind, emit, lift. rewrite Hgen, Hsleep.
  unfold gemini_except. rewrite Hcls. unfold bind, logger, emit, ret.
  rewrite <- !app_assoc. reflexivity.
Qed.

Lemma attempt_success_negative_delay (a : nat) (s : string) (t : list event) :
  generate_content w a req = Return s →
  - sleep_max ≤ success_delay < 0 →
  attempt_ (Z.of_nat a) t
  = ((t ++ [GenerateContent req;
            Log ERROR (msg_unexpected "sleep length must be non-negative")])%list,
     Return (Some None)).
Proof.
  intros Hgen Hsd.
  apply (attempt_success_unslept a s
           (mk_exn ValueError "sleep length must be non-negative") t Hgen).
  - apply time_sleep_negative, Hsd.
  - apply sleep_message_fatal.
Qed.

Lemma attempt_fatal (a : nat) (e : exn) (t : list event) :
  generate_content w a req = Raise e →
  is_transient (str_exn e) = false →
  attempt_ (Z.of_nat a) t
  = ((t ++ [GenerateContent req; Log ERROR (msg_unexpected (str_exn e))])%list,
     Return (Some None)).
Proof.
  intros Hgen Hcls.
  unfold gemini_attempt, gemini_try. rewrite Nat2Z.id.
  unfold try_except, bind, emit, lift. rewrite Hgen.
  unfold gemini_except. rewrite Hcls. unfold bind, logger, emit, ret.
  rewrite <- !app_assoc. reflexivity.
Qed.




(** The outcomes of one attempt, by what the model and [time.sleep] do. *)
Lemma attempt_cases (a : Z) (t : list event) :
  (∃ s, generate_content w (Z.to_nat a) req = Return s
        ∧ sleepable success_delay
        ∧ attempt_ a t
          = ((t ++ [GenerateContent req; Sleep success_delay; Log INFO msg_success])%list,
             Return (Some (Some s))))
  ∨ (∃ msg, attempt_ a t
            = ((t ++ [GenerateContent req; Log ERROR msg])%list, Return (Some None)))
  ∨ (∃ msg1 msg2, max_retries - 1 ≤ a
                  ∧ attempt_ a t
                    = ((t ++ [GenerateContent req; Log WARNING msg1; Log ERROR msg2])%list,
                       Return (Some None)))
  ∨ (a < max_retries - 1
     ∧ sleepable (retry_delay * 2 ^ a)
     ∧ attempt_ a t
       = ((t ++ backoff_round req max_retries retry_delay a)%list, Return None))
  ∨ (∃ msg e, a < max_retries - 1
              ∧ ¬ sleepable (retry_delay * 2 ^ a)
              ∧ attempt_ a t
                = ((t ++ [GenerateContent req; Log WARNING msg])%list, Raise e)).
Proof.
  unfold gemini_attempt, gemini_try.
  unfold try_except, bind, emit, lift.
  destruct (generate_content w (Z.to_nat a) req) as [s|e].
  - destruct (time_sleep_cases success_delay (t ++ [GenerateContent req])%list)
      as [[Hok Hrun] | (Hbad & e & Hrun & Hcls)]; rewrite Hrun.
    + left. exists s. split; [reflexivity|]. split; [exact Hok|].
      unfold logger, emit, ret. rewrite <- !app_assoc. reflexivity.
    + right. left. unfold gemini_except. rewrite Hcls.
      unfold bind, logger, emit, ret. rewrite <- !app_assoc. eauto.
  - unfold gemini_except.
    destruct (is_transient (str_exn e)).
    + destruct (a <? max_retries - 1) eqn:Ea.
      * unfold bind, logger, emit.
        destruct (time_sleep_cases (retry_delay * 2 ^ a)
                    ((t ++ [GenerateContent req])
                       ++ [Log WARNING (msg_overloaded (retry_delay * 2 ^ a) a
                                          max_retries)])%list)
          as [[Hok Hrun] | (Hbad & e' & Hrun & _)]; rewrite Hrun.
        -- right. right. right. left. split; [lia|]. split; [exact Hok|].
           unfold ret, backoff_round. rewrite <- !app_assoc. reflexivity.
        -- right. right. right. right. eexists _, e'.
           split; [lia|]. split; [exact Hbad|].
           rewrite <- !app_assoc. reflexivity.
      * right. right. left. eexists _, _. split; [lia|].
        unfold bind, logger, emit, ret. rewrite <- !app_assoc. reflexivity.
    + right. left. unfold bind, logger, emit, ret. rewrite <- !app_assoc. eauto.
Qed.
End gemini_facts.

Section gemini_loop_facts.
Variables (w : World) (req : request).
Variables (max_retries retry_delay success_delay : Z).

Local Abbreviation attempt_ := (gemini_attempt w req max_retries retry_delay success_delay).
Local Abbreviation loop_ := (gemini_loop w req max_retries retry_delay success_delay).

Lemma loop_continue (a : Z) (rest : list Z) (t t' : list event) :
  attempt_ a t = (t', Return None) → loop_ (a :: rest) t = loop_ rest t'.
Proof. intros Ha. unfold gemini_loop. simpl. unfold bind. rewrite Ha. reflexivity. Qed.

Lemma loop_return (a : Z) (rest : list Z) (t t' : list event) (v : option string) :
  attempt_ a t = (t', Return (Some v)) → loop_ (a :: rest) t = (t', Return (Some v)).
Proof. intros Ha. unfold gemini_loop. simpl. unfold bind. rewrite Ha. reflexivity. Qed.


Lemma backoff_events_step (a n : nat) :
  backoff_events req max_retries retry_delay a (S n)
  = (backoff_round req max_retries retry_delay (Z.of_nat a)
     ++ backoff_events req max_retries retry_delay (S a) n)%list.
Proof. reflexivity. Qed.










End gemini_loop_facts.

(** The steps before the loop leave the log alone; when they complete,
    the key and the prompt were there and the request is the one built
    from them. *)
Lemma gemini_setup_inv (w : World) (title body : string) (req : request)
    (t t' : list event) :
  gemini_setup w title body t = (t', Return req) →
  t' = t
  ∧ genai_client (environ w !! "GOOGLE_API_KEY") = Return tt
  ∧ ∃ sys, prompt_md w = Some sys ∧ req = gemini_request w title body sys.
Proof.
  unfold gemini_setup, read_prompt, bind, lift, ret.
  destruct (genai_client _) as [[]|e]; [|discriminate].
  destruct (prompt_md w) as [sys|]; [|discriminate].
  intros [= <- <-]. eauto.
Qed.

Lemma gemini_setup_ok (w : World) (title body sys : string) (t : list event) :
  genai_client (environ w !! "GOOGLE_API_KEY") = Return tt →
  prompt_md w = Some sys →
  gemini_setup w title body t = (t, Return (gemini_request w title body sys)).
Proof.
  intros Hc Hp. unfold gemini_setup, read_prompt, bind, lift, ret.
  rewrite Hc, Hp. reflexivity.
Qed.

(** With prompt.md there, the steps before the loop either hand over the
    request or raise without touching the log. *)
Lemma gemini_setup_cases (w : World) (title body sys : string) (t : list event) :
  prompt_md w = Some sys →
  gemini_setup w title body t = (t, Return (gemini_request w title body sys))
  ∨ ∃ e, gemini_setup w title body t = (t, Raise e).
Proof.
  intros Hp. unfold gemini_setup, read_prompt, bind, lift, ret. rewrite Hp.
  destruct (genai_client _) as [[]|e]; eauto.
Qed.

Lemma gemini_setup_raises (w : World) (title body : string) (e : exn)
    (max_retries retry_delay success_delay : Z) (t : list event) :
  gemini_setup w title body t = (t, Raise e) →
  getGeminiResponse w title body max_retries retry_delay success_delay t
  = (t, Raise e).
Proof.
  intros Hs. unfold getGeminiResponse. unfold bind at 1. rewrite Hs. reflexivity.
Qed.

(** Once the steps before the loop have completed, the function is its
    retry loop. *)
Lemma gemini_run (w : World) (title body : string) (req : request)
    (max_retries retry_delay success_delay : Z) (t : list event) :
  gemini_setup w title body t = (t, Return req) →
  getGeminiResponse w title body max_retries retry_delay success_delay t
  = match gemini_loop w req max_retries retry_delay success_delay
            (range max_retries) t with
    | (t', Return (Some v)) => (t', Return v)
    | (t', Return None) => (t', Return None)
    | (t', Raise e) => (t', Raise e)
    end.
Proof.
  intros Hs. unfold getGeminiResponse. unfold bind at 1. rewrite Hs.
  unfold bind, ret.
  destruct (gemini_loop _ _ _ _ _ _ t) as [t' [[v|]|e]]; reflexivity.
Qed.

(** The sleeps of [n] backoff rounds with base 5 are 5, 10, 20, ... *)
Lemma backoff_sleeps (req : request) (max_retries retry_delay : Z) (a n : nat) :
  List.filter is_sleep (backoff_events req max_retries retry_delay a n)
  = (λ k, Sleep (retry_delay * 2 ^ Z.of_nat k)) <$> seq a n.
Proof.
  revert a. induction n as [|n IH]; intros a; [reflexivity|].
  rewrite backoff_events_step. cbn [seq fmap list_fmap].
  rewrite <- IH. reflexivity.
Qed.

Example backoff_5_10_20 (req : request) (max_retries : Z) :
  List.filter is_sleep (backoff_events req max_retries 5 0 3)
  = [Sleep 5; Sleep 10; Sleep 20].
Proof. reflexivity. Qed.





(** ** The renderer [convertToHtml] *)

Lemma pure_ret {A} (a : A) : pure_m (ret a).
Proof. exists (Return a). reflexivity. Qed.

Lemma pure_raise {A} (e : exn) : pure_m (raise (A:=A) e).
Proof. exists (Raise e). reflexivity. Qed.

Lemma pure_lift {A} (r : result A) : pure_m (lift r).
Proof. exists r. reflexivity. Qed.

Lemma pure_bind {A B} (m : M A) (k : A → M B) :
  pure_m m → (∀ a, pure_m (k a)) → pure_m (bind m k).
Proof.
  intros [r Hm] Hk. destruct r as [a|e].
  - destruct (Hk a) as [r' Hr']. exists r'. intros t.
    unfold bind. rewrite Hm. apply Hr'.
  - exists (Raise e). intros t. unfold bind. rewrite Hm. reflexivity.
Qed.

Lemma pure_for_each {A R} (body : A → M (option R)) (xs : list A) :
  (∀ x, pure_m (body x)) → pure_m (for_each xs body).
Proof.
  intros Hb. induction xs as [|x xs IH]; simpl.
  - apply pure_ret.
  - apply pure_bind; [apply Hb|]. intros [v|]; [apply pure_ret | exact IH].
Qed.

Lemma pure_map_M {A B} (f : A → M B) (xs : list A) :
  (∀ x, pure_m (f x)) → pure_m (map_M f xs).
Proof.
  intros Hf. induction xs as [|x xs IH]; simpl.
  - apply pure_ret.
  - apply pure_bind; [apply Hf|]. intros y.
    apply pure_bind; [exact IH|]. intros ys. apply pure_ret.
Qed.

Create HintDb pure.
#[local] Hint Resolve pure_ret pure_raise pure_lift : pure.

(** In a list with an element satisfying a decidable [P], the first such
    element splits the list. *)
Lemma first_split {A} (P : A → Prop) `{∀ x, Decision (P x)} (l : list A) :
  Exists P l →
  ∃ before x after, l = (before ++ x :: after)%list ∧ Forall (λ y, ¬ P y) before ∧ P x.
Proof.
  induction l as [|y l IH]; intros HE; [inversion HE|].
  destruct (decide (P y)) as [Hy|Hy].
  - exists [], y, l. repeat split; [constructor | exact Hy].
  - inversion HE as [? ? Hy'|? ? Hl]; subst; [contradiction|].
    destruct (IH Hl) as (b & x & a & -> & Hb & Hx).
    exists (y :: b), x, a. repeat split; [constructor; assumption | exact Hx].
Qed.

Section render_facts.
Context {json_lib : PyJson}.

Lemma check_key_pure (j : json) (k : string) : pure_m (check_key j k).
Proof.
  unfold check_key. apply pure_bind; [auto with pure|].
  intros [|]; simpl; auto with pure.
Qed.

Lemma term_html_pure (x : json) : pure_m (term_html x).
Proof.
  unfold term_html. apply pure_bind; [auto with pure|]. intros a.
  apply pure_bind; [auto with pure|]. intros b. auto with pure.
Qed.

Lemma generate_key_terms_html_pure (v : json) : pure_m (generate_key_terms_html v).
Proof.
  unfold generate_key_terms_html. apply pure_bind; [auto with pure|]. intros l.
  apply pure_bind; [apply pure_map_M, term_html_pure|]. intros ys. auto with pure.
Qed.

Lemma convertToHtml_pure (response article_url : string) :
  pure_m (convertToHtml response article_url).
Proof.
  unfold convertToHtml. apply pure_bind; [auto with pure|]. intros j.
  apply pure_bind; [apply pure_for_each, check_key_pure|]. intros _.
  unfold render_template.
  repeat (apply pure_bind; [auto with pure|]; intros ?).
  apply pure_bind; [apply generate_key_terms_html_pure|]. intros ?.
  auto with pure.
Qed.

(** The loop over the required keys stops at the first key the test
    [key not in json_response] accepts. *)
Lemma check_keys_missing (j : json) (before : list string) (k : string)
    (after : list string) (t : list event) :
  Forall (λ k', py_contains j k' = Return true) before →
  py_contains j k = Return false →
  for_each (before ++ k :: after)%list (check_key j) t
  = (t, Raise (mk_exn Exception (msg_missing_key k))).
Proof.
  intros Hb Hk. induction Hb as [|k' before Hk' Hb IH]; simpl.
  - unfold bind, check_key, bind, lift. rewrite Hk. reflexivity.
  - unfold bind at 1. unfold check_key at 1. unfold bind, lift.
    rewrite Hk'. simpl. exact IH.
Qed.

Lemma check_keys_pass (j : json) (ks : list string) (t : list event) :
  Forall (λ k', py_contains j k' = Return true) ks →
  for_each ks (check_key j) t = (t, Return None).
Proof.
  intros Hb. induction Hb as [|k' ks Hk' Hb IH]; simpl; [reflexivity|].
  unfold bind at 1. unfold check_key at 1. unfold bind, lift.
  rewrite Hk'. simpl. exact IH.
Qed.

Lemma dict_contains_true (d : gmap string json) (k : string) :
  is_Some (d !! k) → py_contains (JDict d) k = Return true.
Proof. intros Hk. simpl. rewrite bool_decide_eq_true_2; done. Qed.

Lemma dict_contains_false (d : gmap string json) (k : string) :
  d !! k = None → py_contains (JDict d) k = Return false.
Proof.
  intros Hk. simpl. rewrite bool_decide_eq_false_2; [done|].
  rewrite Hk. intros [? [=]].
Qed.

(** C5, amended to responses that parse to a JSON object.  If the object
    lacks one of the seven required keys, the renderer raises the
    exception whose message names the first missing key in the order of
    [required_keys]: every key before it is present, and keys after it
    play no role.  In particular an object that has 'title' and 'summary'
    but no 'meaning' yields the error naming 'meaning'. *)
Theorem render_names_first_missing_key (response article_url : string)
    (d : gmap string json) (t : list event) :
  json_loads response = Return (JDict d) →
  (∃ k, k ∈ required_keys ∧ d !! k = None) →
  (∃ before k after,
     required_keys = (before ++ k :: after)%list
     ∧ Forall (λ k', is_Some (d !! k')) before
     ∧ d !! k = None
     ∧ convertToHtml response article_url t
       = (t, Raise (mk_exn Exception (msg_missing_key k))))
  ∧ (is_Some (d !! "title") → is_Some (d !! "summary") → d !! "meaning" = None →
     convertToHtml response article_url t
     = (t, Raise (mk_exn Exception (msg_missing_key "meaning")))).
Proof.
  intros Hload (k0 & Hin & Hk0).
  assert (Hrun : ∀ before k after,
            required_keys = (before ++ k :: after)%list →
            Forall (λ k', is_Some (d !! k')) before →
            d !! k = None →
            convertToHtml response article_url t
            = (t, Raise (mk_exn Exception (msg_missing_key k)))).
  { intros before k after Heq Hb Hk.
    unfold convertToHtml. unfold bind at 1. unfold lift at 1. rewrite Hload.
    unfold bind at 1. rewrite Heq.
    rewrite (check_keys_missing (JDict d) before k after t); [reflexivity| |].
    - eapply Forall_impl; [exact Hb|]. intros k'. apply dict_contains_true.
    - apply dict_contains_false, Hk. }
  split.
  - destruct (first_split (λ k, d !! k = None) required_keys)
      as (before & k & after & Heq & Hb & Hk).
    { apply Exists_exists. exists k0. split; [exact Hin | exact Hk0]. }
    exists before, k, after. repeat split; [exact Heq | | exact Hk | ].
    + eapply Forall_impl; [exact Hb|]. intros k' Hk'. simpl in Hk'.
      destruct (d !! k'); [eauto | contradiction].
    + eapply Hrun; [exact Heq | | exact Hk].
      eapply Forall_impl; [exact Hb|]. intros k' Hk'. simpl in Hk'.
      destruct (d !! k'); [eauto | contradiction].
  - intros Ht Hs Hm.
    apply (Hrun ["title"; "summary"] "meaning"
             ["importance"; "impact_on_us"; "food_for_thought"; "key_terms"]);
      [reflexivity | repeat constructor; assumption | exact Hm].
Qed.
End render_facts.

Section render_more_facts.
Context {json_lib : PyJson}.

(** C8.  Two invocations with the same response text and the same
    article URL produce the same outcome (the same document, or the same
    failure), whatever has been logged before each of them; and an
    invocation leaves the event log as it found it. *)
Theorem convertToHtml_deterministic (response1 response2 url1 url2 : string)
    (t1 t2 : list event) :
  response1 = response2 →
  url1 = url2 →
  (convertToHtml response1 url1 t1).2 = (convertToHtml response2 url2 t2).2
  ∧ (convertToHtml response1 url1 t1).1 = t1.
Proof.
  intros -> ->.
  destruct (convertToHtml_pure response2 url2) as [r Hr].
  rewrite !Hr. split; reflexivity.
Qed.

Lemma term_html_cases (x : json) (t : list event) :
  (has_field x "term" ∧ has_field x "definition"
   ∧ ∃ s, term_html x t = (t, Return s))
  ∨ (entry_lacks x
     ∧ ∃ e, term_html x t = (t, Raise e)
            ∧ raw_lookup_error e
            ∧ (is_object x →
               exn_cls e = KeyError ∧ (exn_arg e = "term" ∨ exn_arg e = "definition"))).
Proof.
  unfold term_html, entry_lacks, raw_lookup_error, bind, lift, ret.
  destruct x as [| b | n | f | s | l | m]; simpl;
    try (right; split; [left; tauto |];
         eexists; split; [reflexivity |]; split; [right; reflexivity | tauto]).
  destruct (m !! "term") as [vt|] eqn:Et.
  - destruct (m !! "definition") as [vd|] eqn:Ed.
    + left. repeat split; eauto.
    + right. split; [right; intros [? [=]]|].
      eexists; split; [reflexivity|]. split; [left; reflexivity|].
      intros _. split; [reflexivity | right; reflexivity].
  - right. split; [left; intros [? [=]]|].
    eexists; split; [reflexivity|]. split; [left; reflexivity|].
    intros _. split; [reflexivity | left; reflexivity].
Qed.

Lemma map_M_term_html_raises (entries : list json) (t : list event) :
  Exists entry_lacks entries →
  ∃ e, map_M term_html entries t = (t, Raise e)
       ∧ raw_lookup_error e
       ∧ (Forall is_object entries →
          exn_cls e = KeyError ∧ (exn_arg e = "term" ∨ exn_arg e = "definition")).
Proof.
  induction entries as [|x entries IH]; intros HE; [inversion HE|].
  simpl. unfold bind at 1.
  destruct (term_html_cases x t) as [(Ht & Hd & s & Hs) | (Hl & e & He & Hraw & Hobj)].
  - rewrite Hs.
    assert (HE' : Exists entry_lacks entries).
    { inversion HE as [? ? Hx|? ? Hx]; subst; [|exact Hx].
      destruct Hx; contradiction. }
    destruct (IH HE') as (e & He & Hraw & Hobj).
    exists e. unfold bind. rewrite He. split; [reflexivity|]. split; [exact Hraw|].
    intros Hall. apply Hobj. inversion Hall; assumption.
  - rewrite He. exists e. split; [reflexivity|]. split; [exact Hraw|].
    intros Hall. apply Hobj. inversion Hall; assumption.
Qed.

(** C10.  Only the seven top-level keys are checked.  For an object that
    has all seven and whose 'key_terms' is a list in which some entry
    lacks 'term' or 'definition', rendering raises the error of the
    failing subscript itself: a [KeyError] for 'term' or 'definition'
    when the entries are objects (a [TypeError] when an entry is not an
    object at all), never the exception that names a missing required
    key; no document is returned. *)
Theorem render_key_terms_unchecked (response article_url : string)
    (d : gmap string json) (entries : list json) (t : list event) :
  json_loads response = Return (JDict d) →
  (∀ k, k ∈ required_keys → is_Some (d !! k)) →
  d !! "key_terms" = Some (JList entries) →
  Exists entry_lacks entries →
  ∃ e, convertToHtml response article_url t = (t, Raise e)
       ∧ raw_lookup_error e
       ∧ (∀ k, e ≠ mk_exn Exception (msg_missing_key k))
       ∧ (Forall is_object entries →
          exn_cls e = KeyError ∧ (exn_arg e = "term" ∨ exn_arg e = "definition")).
Proof.
  intros Hload Hall Hkt HE.
  destruct (map_M_term_html_raises entries t HE) as (e & He & Hraw & Hobj).
  exists e. split; [| split; [exact Hraw | split; [| exact Hobj]]].
  - unfold convertToHtml. unfold bind at 1. unfold lift at 1. rewrite Hload.
    unfold bind at 1.
    rewrite (check_keys_pass (JDict d) required_keys t).
    2:{ apply Forall_forall. intros k Hk. apply dict_contains_true, Hall, Hk. }
    unfold render_template, bind, lift, ret. simpl.
    destruct (Hall "title") as [v1 ->]; [apply list_elem_of_In; simpl; tauto|].
    destruct (Hall "summary") as [v2 ->]; [apply list_elem_of_In; simpl; tauto|].
    destruct (Hall "meaning") as [v3 ->]; [apply list_elem_of_In; simpl; tauto|].
    destruct (Hall "importance") as [v4 ->]; [apply list_elem_of_In; simpl; tauto|].
    destruct (Hall "impact_on_us") as [v5 ->]; [apply list_elem_of_In; simpl; tauto|].
    destruct (Hall "food_for_thought") as [v6 ->]; [apply list_elem_of_In; simpl; tauto|].
    rewrite Hkt. unfold generate_key_terms_html, bind, lift. simpl.
    unfold bind in He. rewrite He. reflexivity.
  - intros k Hk. subst e. destruct Hraw as [Hc|Hc]; simpl in Hc; discriminate.
Qed.
End render_more_facts.

(** ** The fetch functions *)

Section fetch_facts.
Context {tag : Type} {soup_lib : Soup tag}.

Lemma first_article_run (w : World) (press_code date ua : string)
    (resp : response) (t : list event) :
  requests_get w (listing_url press_code date) ua = Return resp →
  status_code resp = 200 →
  getFirstArticleUrl w press_code date ua t
  = ((t ++ [HttpGet (listing_url press_code date) ua])%list,
     match find (BeautifulSoup (text resp)) "div"
             (ByClass "newspaper_brick_item _start_page") with
     | None => Raise (mk_exn Exception msg_no_link)
     | Some brick =>
         match find brick "ul" (ByClass "newspaper_article_lst") with
         | None => Raise (mk_exn Exception msg_no_link)
         | Some ul =>
             match find ul "li" NoFilter with
             | None => Raise (mk_exn Exception msg_no_link)
             | Some li =>
                 match find li "a" NoFilter with
                 | None => Raise (mk_exn Exception msg_no_link)
                 | Some a =>
                     match get_attr a "href" with
                     | None => Raise (mk_exn Exception msg_no_link)
                     | Some href => Return href
                     end
                 end
             end
         end
     end).
Proof.
  intros Hget Hst.
  unfold getFirstArticleUrl, find_if. run_m. rewrite Hget, Hst. simpl.
  destruct (find (BeautifulSoup (text resp)) _ _) as [brick|]; simpl; [|reflexivity].
  destruct (find brick _ _) as [ul|]; simpl; [|reflexivity].
  destruct (find ul _ _) as [li|]; simpl; [|reflexivity].
  destruct (find li _ _) as [a|]; simpl; [|reflexivity].
  destruct (get_attr a "href") as [href|]; reflexivity.
Qed.

(** C6.  On a front page fetched with status 200 whose lookup chain is
    broken at any node, [getFirstArticleUrl] raises the one exception
    with the message "no article link found"; and on every page the
    transport returns, broken or not, whatever the function raises is not
    a fault of using [None] as an object. *)
Theorem first_article_broken_chain (w : World) (press_code date ua : string)
    (resp : response) (t : list event) :
  requests_get w (listing_url press_code date) ua = Return resp →
  (status_code resp = 200 →
   chain_broken (BeautifulSoup (text resp)) →
   getFirstArticleUrl w press_code date ua t
   = ((t ++ [HttpGet (listing_url press_code date) ua])%list,
      Raise (mk_exn Exception msg_no_link)))
  ∧ (∀ e, (getFirstArticleUrl w press_code date ua t).2 = Raise e → ¬ null_fault e).
Proof.
  intros Hget. split.
  - intros Hst.
    rewrite (first_article_run w press_code date ua resp t Hget Hst).
    intros [H1 | b H1 H2 | b u H1 H2 H3 | b u l H1 H2 H3 H4
           | b u l a H1 H2 H3 H4 H5];
      rewrite H1; try rewrite H2; try rewrite H3; try rewrite H4;
      try rewrite H5; reflexivity.
  - destruct (decide (status_code resp = 200)) as [Hst|Hst].
    + rewrite (first_article_run w press_code date ua resp t Hget Hst).
      intros e. simpl.
      destruct (find (BeautifulSoup (text resp)) _ _) as [brick|];
        [destruct (find brick _ _) as [ul|];
         [destruct (find ul _ _) as [li|];
          [destruct (find li _ _) as [a|];
           [destruct (get_attr a "href") as [href|]|]|]|]|];
        intros [=]; subst e; intros [Hc|Hc]; discriminate.
    + unfold getFirstArticleUrl. run_m. rewrite Hget.
      rewrite bool_decide_eq_true_2 by exact Hst. simpl.
      intros e [=]; subst e; intros [Hc|Hc]; discriminate.
Qed.

(** C7.  On an article page fetched with status 200, [getArticleContent]
    always returns a title and a body: the placeholder title when the
    title container is not found and the placeholder body when the body
    container is not found, the text of the container otherwise. *)
Theorem article_content_lenient (w : World) (article_url ua : string)
    (resp : response) (t : list event) :
  requests_get w article_url ua = Return resp →
  status_code resp = 200 →
  ∃ title body,
    getArticleContent w article_url ua t
    = ((t ++ [HttpGet article_url ua])%list, Return (title, body))
    ∧ (find (BeautifulSoup (text resp)) "div" (ByClass "media_end_head_title") = None →
       title = no_title)
    ∧ (find (BeautifulSoup (text resp)) "div" (ById "newsct_article") = None →
       body = no_body)
    ∧ (∀ d, find (BeautifulSoup (text resp)) "div" (ByClass "media_end_head_title")
            = Some d → title = get_text d EmptyString)
    ∧ (∀ d, find (BeautifulSoup (text resp)) "div" (ById "newsct_article")
            = Some d → body = get_text d nl).
Proof.
  intros Hget Hst.
  unfold getArticleContent. run_m. rewrite Hget, Hst. simpl.
  destruct (find (BeautifulSoup (text resp)) "div" (ByClass _)) as [td|];
    destruct (find (BeautifulSoup (text resp)) "div" (ById _)) as [bd|]; simpl;
    eexists _, _; (split; [reflexivity|]);
    repeat split; congruence.
Qed.
End fetch_facts.

(** ** The start-up check of the environment *)

Lemma str_in_unfold (needle hay : string) :
  str_in needle hay
  = String.prefix needle hay
    || match hay with
       | EmptyString => false
       | String _ hay' => str_in needle hay'
       end.
Proof. destruct hay; reflexivity. Qed.

Lemma append_nil (t : string) : EmptyString +:+ t = t.
Proof. reflexivity. Qed.

Lemma append_cons (a : Ascii.ascii) (s t : string) :
  String a s +:+ t = String a (s +:+ t).
Proof. reflexivity. Qed.

Lemma append_nil_r (s : string) : s +:+ EmptyString = s.
Proof.
  induction s as [|a s IH]; [reflexivity|].
  rewrite append_cons, IH. reflexivity.
Qed.

Lemma prefix_app (s t : string) : String.prefix s (s +:+ t) = true.
Proof.
  induction s as [|a s IH].
  - rewrite append_nil. destruct t; reflexivity.
  - rewrite append_cons. simpl.
    destruct (Ascii.ascii_dec a a); [exact IH | contradiction].
Qed.

Lemma str_in_app_l (s t : string) : str_in s (s +:+ t) = true.
Proof. rewrite str_in_unfold, prefix_app. reflexivity. Qed.

Lemma str_in_self (s : string) : str_in s s = true.
Proof. rewrite <- (append_nil_r s) at 2. apply str_in_app_l. Qed.

Lemma str_in_app_r (needle a b : string) :
  str_in needle b = true → str_in needle (a +:+ b) = true.
Proof.
  intros Hb. induction a as [|c a IH]; [exact Hb|].
  rewrite append_cons, str_in_unfold, IH. apply orb_true_r.
Qed.

Lemma str_in_join (v sep : string) (xs : list string) :
  v ∈ xs → str_in v (join sep xs) = true.
Proof.
  induction xs as [|x xs IH]; intros Hin; [inversion Hin|].
  destruct xs as [|y xs].
  - apply list_elem_of_singleton in Hin as ->. apply str_in_self.
  - change (join sep (x :: y :: xs)) with (x +:+ sep +:+ join sep (y :: xs)).
    apply elem_of_cons in Hin as [-> | Hin].
    + apply str_in_app_l.
    + apply str_in_app_r, str_in_app_r, IH, Hin.
Qed.

Lemma elem_of_missing_vars (w : World) (v : string) :
  v ∈ missing_vars w
  ↔ v ∈ required_env_vars
    ∧ (environ w !! v = None ∨ environ w !! v = Some EmptyString).
Proof.
  unfold missing_vars. rewrite !list_elem_of_In, filter_In.
  unfold getenv, truthy_str.
  split; intros [Hin Hv]; (split; [exact Hin|]).
  - destruct (environ w !! v) as [s|]; [|left; reflexivity].
    right. destruct s; [reflexivity | discriminate].
  - destruct Hv as [-> | ->]; reflexivity.
Qed.

Section main_facts.
Context {tag : Type} {soup_lib : Soup tag} {json_lib : PyJson}.

(** C9.  If one of the seven required variables is absent, the script
    logs one error record and raises [ValueError] with the same message;
    nothing else is added to the event log, so no request, model call,
    post or notification has been made.  The message ends with the
    comma-separated list of the missing names: a required name is in the
    list exactly when the variable is unset or empty, and every absent
    name occurs in the message. *)
Theorem main_aborts_on_missing_env (w : World) (t : list event) :
  (∃ v, v ∈ required_env_vars ∧ environ w !! v = None) →
  let error_message := msg_missing_env (missing_vars w) in
  main w t
  = ((t ++ [Log ERROR error_message])%list, Raise (mk_exn ValueError error_message))
  ∧ (∀ ev, ev ∈ [Log ERROR error_message] → is_network ev = false)
  ∧ (∀ v, v ∈ missing_vars w
          ↔ v ∈ required_env_vars
            ∧ (environ w !! v = None ∨ environ w !! v = Some EmptyString))
  ∧ (∀ v, v ∈ required_env_vars → environ w !! v = None →
          str_in v error_message = true).
Proof.
  intros (v0 & Hin0 & Hv0) error_message.
  assert (Hm0 : v0 ∈ missing_vars w) by (apply elem_of_missing_vars; auto).
  split; [|split; [|split]].
  - unfold main. rewrite bool_decide_eq_false_2.
    + reflexivity.
    + intros Hnil. rewrite Hnil in Hm0. inversion Hm0.
  - intros ev Hev. apply list_elem_of_singleton in Hev as ->. reflexivity.
  - intros v. apply elem_of_missing_vars.
  - intros v Hin Hv. unfold error_message, msg_missing_env.
    apply str_in_app_r, str_in_join, elem_of_missing_vars. auto.
Qed.

(** The caller takes [None] for "summarization failed": the pipeline
    logs it and raises, so the renderer and the post API are not
    reached. *)
Lemma pipeline_stops_on_null (w : World) (press_code : option string)
    (today today_str ua url title body : string) (t t1 t2 t3 : list event) :
  getFirstArticleUrl w (str_opt press_code) today_str ua t = (t1, Return url) →
  getArticleContent w url ua (t1 ++ [Log INFO ("✅ 기사 링크: " +:+ url)])%list
  = (t2, Return (title, body)) →
  getGeminiResponse w title body default_max_retries default_retry_delay
    default_success_delay
    (t2 ++ [Log INFO (nl +:+ "📰 [기사 제목] " +:+ nl +:+ title);
            Log INFO (nl +:+ "📝 [본문 내용] " +:+ nl +:+ body)])%list
  = (t3, Return None) →
  pipeline w press_code today today_str ua t
  = ((t3 ++ [Log ERROR "❌ Gemini API 호출 실패"])%list,
     Raise (mk_exn Exception "Gemini API 호출 실패")).
Proof.
  intros Hurl Hart Hgem.
  unfold pipeline. unfold bind at 1. rewrite Hurl.
  unfold bind at 1. unfold logger at 1, emit at 1.
  unfold bind at 1. rewrite Hart. cbn [fst snd].
  unfold bind at 1. unfold logger at 1, emit at 1.
  unfold bind at 1. unfold logger at 1, emit at 1.
  rewrite <- app_assoc. cbn [app].
  unfold bind at 1. rewrite Hgem.
  reflexivity.
Qed.
End main_facts.

(** ** Concrete runs *)


(** With the default three attempts the third transient failure is the
    last: 5 and 10 seconds are slept, 20 are announced but not slept. *)
Example gemini_default_exhausted :
  List.filter is_sleep
    (getGeminiResponse w_overloaded "T" "B" default_max_retries default_retry_delay
       default_success_delay []).1
  = [Sleep 5; Sleep 10]
  ∧ (getGeminiResponse w_overloaded "T" "B" default_max_retries default_retry_delay
       default_success_delay []).2 = Return None.
Proof. split; vm_compute; reflexivity. Qed.


Example gemini_rejected_single_call :
  List.filter is_model_call (getGeminiResponse w_rejected "T" "B" 3 5 3 []).1
  = [GenerateContent (gemini_request w_rejected "T" "B" "PROMPT")]
  ∧ List.filter is_sleep (getGeminiResponse w_rejected "T" "B" 3 5 3 []).1 = [].
Proof. split; vm_compute; reflexivity. Qed.


Example gemini_second_try_sleeps :
  List.filter is_sleep (getGeminiResponse w_second_try "T" "B" 3 5 3 []).1
  = [Sleep 5; Sleep 3].
Proof. vm_compute; reflexivity. Qed.


(** The same happens above the range of [time.sleep]. *)
Example gemini_overflowing_success_delay :
  (getGeminiResponse w_second_try "T" "B" 3 5 10000000000 []).2 = Return None.
Proof. vm_compute; reflexivity. Qed.



(** So does the constructor of the client when the key is not set. *)
Example gemini_missing_key_propagates :
  ∃ msg,
    getGeminiResponse w_no_key "T" "B" default_max_retries default_retry_delay
      default_success_delay []
    = ([], Raise (mk_exn ValueError msg)).
Proof. eexists. reflexivity. Qed.

(** The backoff sleep sits in the handler, outside the [try]: what
    [time.sleep] raises there reaches the caller as well, for a negative
    base and for one above its range. *)
Example gemini_negative_retry_delay :
  (getGeminiResponse w_overloaded "T" "B" 3 (-5) 3 []).2
  = Raise (mk_exn ValueError "sleep length must be non-negative").
Proof. vm_compute; reflexivity. Qed.

Example gemini_overflowing_retry_delay :
  (getGeminiResponse w_overloaded "T" "B" 3 10000000000 3 []).2
  = Raise (mk_exn OverflowError "timestamp too large to convert to C _PyTime_t").
Proof. vm_compute; reflexivity. Qed.

Lemma render_names_first_missing_key_witness :
  convertToHtml (json_lib:=json_examples) "no-meaning" "https://example.com/a1" []
  = ([], Raise (mk_exn Exception (msg_missing_key "meaning"))).
Proof.
  refine (proj2 (render_names_first_missing_key (json_lib:=json_examples) "no-meaning"
                   "https://example.com/a1" payload_no_meaning [] _ _) _ _ _).
  - reflexivity.
  - exists "meaning". split; [apply list_elem_of_In; simpl; tauto | reflexivity].
  - eexists. reflexivity.
  - eexists. reflexivity.
  - reflexivity.
Defined.

(** C5 as stated fails on well-formed JSON that is not an object: the
    text [null] has none of the seven fields, and the membership test on
    it raises a [TypeError] that names no field. *)
Lemma render_null_is_type_error :
  json_loads (PyJson:=json_examples) "null" = Return JNull
  ∧ (∃ k, k ∈ required_keys ∧ ¬ has_field JNull k)
  ∧ convertToHtml (json_lib:=json_examples) "null" "https://example.com/a1" []
    = ([], Raise (mk_exn TypeError "argument of type 'NoneType' is not iterable"))
  ∧ ∀ k, convertToHtml (json_lib:=json_examples) "null" "https://example.com/a1" []
         ≠ ([], Raise (mk_exn Exception (msg_missing_key k))).
Proof.
  split; [reflexivity|]. split.
  - exists "title". split; [apply list_elem_of_In; simpl; tauto | intros []].
  - split; [reflexivity|]. intros k. vm_compute. discriminate.
Qed.

(** On an array the membership test looks at the elements: the array
    holding the string 'title' passes the first check and the error names
    'summary'. *)
Example render_array_names_summary :
  (convertToHtml (json_lib:=json_examples) ("[" +:+ dq +:+ "title" +:+ dq +:+ "]")
     "https://example.com/a1" []).2
  = Raise (mk_exn Exception (msg_missing_key "summary")).
Proof. reflexivity. Qed.

Lemma convertToHtml_deterministic_witness :
  (convertToHtml (json_lib:=json_examples) "complete" "https://example.com/a1" []).2
  = (convertToHtml (json_lib:=json_examples) "complete" "https://example.com/a1"
       [Sleep 3; Log INFO msg_success]).2
  ∧ (convertToHtml (json_lib:=json_examples) "complete" "https://example.com/a1" []).1 = [].
Proof.
  apply (convertToHtml_deterministic (json_lib:=json_examples) "complete" "complete"
           "https://example.com/a1" "https://example.com/a1" []
           [Sleep 3; Log INFO msg_success]); reflexivity.
Defined.

(** The document of the complete payload holds the title, the summary,
    the term and the link. *)
Example render_complete_contains :
  ∃ html,
    (convertToHtml (json_lib:=json_examples) "complete" "https://example.com/a1" []).2
    = Return html
    ∧ str_in ("href=" +:+ dq +:+ "https://example.com/a1" +:+ dq) html = true
    ∧ str_in "GDP" html = true.
Proof. eexists. split; [vm_compute; reflexivity | split; vm_compute; reflexivity]. Qed.

Lemma render_key_terms_unchecked_witness :
  ∃ e, convertToHtml (json_lib:=json_examples) "bad-term" "https://example.com/a1" []
       = ([], Raise e)
       ∧ raw_lookup_error e
       ∧ (∀ k, e ≠ mk_exn Exception (msg_missing_key k))
       ∧ (Forall is_object [term_complete; term_without_definition] →
          exn_cls e = KeyError ∧ (exn_arg e = "term" ∨ exn_arg e = "definition")).
Proof.
  apply (render_key_terms_unchecked (json_lib:=json_examples) "bad-term"
           "https://example.com/a1"
           (payload_with_terms [term_complete; term_without_definition])).
  - reflexivity.
  - intros k Hk. apply list_elem_of_In in Hk. simpl in Hk.
    destruct Hk as [<-|[<-|[<-|[<-|[<-|[<-|[<-|[]]]]]]]]; eexists; reflexivity.
  - reflexivity.
  - apply Exists_cons_tl, Exists_cons_hd. right. intros [x Hx]. discriminate Hx.
Defined.

Example render_bad_term_key_error :
  (convertToHtml (json_lib:=json_examples) "bad-term" "https://example.com/a1" []).2
  = Raise (mk_exn KeyError "definition").
Proof. vm_compute; reflexivity. Qed.

Lemma first_article_broken_chain_witness :
  getFirstArticleUrl (soup_lib:=soup_examples) (w_page "no-href") "015" "20250102"
    "Mozilla/5.0" []
  = (([] ++ [HttpGet (listing_url "015" "20250102") "Mozilla/5.0"])%list,
     Raise (mk_exn Exception msg_no_link)).
Proof.
  refine (proj1 (first_article_broken_chain (soup_lib:=soup_examples)
                   (w_page "no-href") "015" "20250102" "Mozilla/5.0"
                   {| status_code := 200; text := "no-href" |} [] _) _ _).
  - reflexivity.
  - reflexivity.
  - eapply (anchor_without_href (soup_lib:=soup_examples)); reflexivity.
Defined.

(** The five ways of breaking the chain give the same exception. *)
Example first_article_same_error :
  Forall (λ markup,
            (getFirstArticleUrl (soup_lib:=soup_examples) (w_page markup) "015"
               "20250102" "Mozilla/5.0" []).2
            = Raise (mk_exn Exception msg_no_link))
         ["no-section"; "no-list"; "empty-list"; "no-anchor"; "no-href"].
Proof. repeat constructor. Qed.

Example first_article_found :
  (getFirstArticleUrl (soup_lib:=soup_examples) (w_page "listing") "015" "20250102"
     "Mozilla/5.0" []).2
  = Return "https://example.com/a1".
Proof. reflexivity. Qed.

Lemma article_content_lenient_witness :
  ∃ title body,
    getArticleContent (soup_lib:=soup_examples) (w_page "bare")
      "https://example.com/a1" "Mozilla/5.0" []
    = (([] ++ [HttpGet "https://example.com/a1" "Mozilla/5.0"])%list,
       Return (title, body))
    ∧ title = no_title
    ∧ body = no_body.
Proof.
  destruct (article_content_lenient (soup_lib:=soup_examples) (w_page "bare")
              "https://example.com/a1" "Mozilla/5.0"
              {| status_code := 200; text := "bare" |} [] eq_refl eq_refl)
    as (title & body & Hrun & Ht & Hb & _).
  exists title, body. split; [exact Hrun|].
  split; [apply Ht; reflexivity | apply Hb; reflexivity].
Defined.

Example article_content_placeholders :
  (getArticleContent (soup_lib:=soup_examples) (w_page "bare")
     "https://example.com/a1" "Mozilla/5.0" []).2
  = Return (no_title, no_body).
Proof. reflexivity. Qed.

Example article_content_extracted :
  (getArticleContent (soup_lib:=soup_examples) (w_page "article")
     "https://example.com/a1" "Mozilla/5.0" []).2
  = Return ("테스트 제목", "본문1" +:+ nl +:+ "본문2").
Proof. vm_compute; reflexivity. Qed.

Lemma main_aborts_on_missing_env_witness :
  main (soup_lib:=soup_examples) (json_lib:=json_examples) w_env_missing []
  = (([] ++ [Log ERROR (msg_missing_env (missing_vars w_env_missing))])%list,
     Raise (mk_exn ValueError (msg_missing_env (missing_vars w_env_missing)))).
Proof.
  refine (proj1 (main_aborts_on_missing_env (soup_lib:=soup_examples)
                   (json_lib:=json_examples) w_env_missing [] _)).
  exists "GOOGLE_API_KEY". split; [apply list_elem_of_In; simpl; tauto | reflexivity].
Defined.

Example main_missing_env_list :
  missing_vars w_env_missing
  = ["GOOGLE_API_KEY"; "GEMINI_MODEL"; "BASE_URL"; "TELEGRAM_CHAT_TEST_ID";
     "TELEGRAM_CHAT_ID"; "TELEGRAM_BOT_TOKEN"].
Proof. vm_compute; reflexivity. Qed.

(** * Further properties of the code *)

(** ** The retry loop: bounds and edge cases *)

Lemma total_sleep_app (xs ys : list event) :
  total_sleep (xs ++ ys) = total_sleep xs + total_sleep ys.
Proof.
  induction xs as [|e xs IH]; simpl; [lia|].
  destruct e; rewrite ?IH; lia.
Qed.

Lemma count_calls_app (xs ys : list event) :
  count_calls (xs ++ ys) = (count_calls xs + count_calls ys)%nat.
Proof. unfold count_calls. rewrite List.filter_app, length_app. reflexivity. Qed.

Lemma count_calls_call (req : request) (evs : list event) :
  count_calls (GenerateContent req :: evs) = S (count_calls evs).
Proof. reflexivity. Qed.





Section gemini_bounds.
Variables (w : World) (req : request).
Variables (max_retries retry_delay success_delay : Z).

Local Abbreviation attempt_ := (gemini_attempt w req max_retries retry_delay success_delay).
Local Abbreviation loop_ := (gemini_loop w req max_retries retry_delay success_delay).

(** What one attempt adds to the log: its call, no other call, and
    either the backoff sleep (when the loop goes on) or at most the
    success sleep. *)
Lemma attempt_summary (a : Z) (t : list event) :
  ∃ evs r,
    attempt_ a t = ((t ++ GenerateContent req :: evs)%list, r)
    ∧ count_calls evs = 0%nat
    ∧ (∀ e, e ∈ evs → is_model_call e = false)
    ∧ (r = Return None → a < max_retries - 1 ∧ total_sleep evs = retry_delay * 2 ^ a)
    ∧ (r ≠ Return None →
       total_sleep evs = 0 ∨ (0 ≤ success_delay ∧ total_sleep evs = success_delay)).
Proof.
  destruct (attempt_cases w req max_retries retry_delay success_delay a t)
    as [(s & _ & [Hsd _] & H) | [(m & H) | [(m1 & m2 & _ & H)
       | [(Hlt & _ & H) | (m & e & _ & _ & H)]]]];
    rewrite H; unfold backoff_round; simpl; eexists _, _;
    (split; [reflexivity|]); (split; [reflexivity|]);
    (split; [intros ev Hev;
             repeat (apply elem_of_cons in Hev as [-> | Hev]; [reflexivity|]);
             inversion Hev|]).
  - split; [discriminate|]. intros _. right. simpl. split; [exact Hsd | lia].
  - split; [discriminate|]. intros _. left. reflexivity.
  - split; [discriminate|]. intros _. left. reflexivity.
  - split; [intros _; simpl; split; [exact Hlt | lia] | intros Hne; contradiction].
  - split; [discriminate|]. intros _. left. reflexivity.
Qed.

Lemma loop_calls (xs : list Z) :
  ∀ t, ∃ evs r,
    loop_ xs t = ((t ++ evs)%list, r)
    ∧ (count_calls evs ≤ length xs)%nat
    ∧ ∀ e, e ∈ evs → is_model_call e = true → e = GenerateContent req.
Proof.
  induction xs as [|a xs IH]; intros t.
  - exists [], (Return None). unfold gemini_loop. simpl. unfold ret.
    rewrite app_nil_r. split; [reflexivity|]. split; [reflexivity|].
    intros e He. inversion He.
  - destruct (attempt_summary a t) as (evs & r & Hrun & Hc & Hno & _ & _).
    assert (Hreq : ∀ e, e ∈ GenerateContent req :: evs →
                        is_model_call e = true → e = GenerateContent req).
    { intros e He Hcall. apply elem_of_cons in He as [-> | He]; [reflexivity|].
      rewrite (Hno e He) in Hcall. discriminate. }
    unfold gemini_loop. simpl. unfold bind. rewrite Hrun.
    destruct r as [[v|]|e].
    + unfold ret. eexists _, _. split; [reflexivity|]. split; [|exact Hreq].
      rewrite count_calls_call, Hc. simpl. lia.
    + destruct (IH (t ++ GenerateContent req :: evs)%list)
        as (evs' & r' & Hl & Hc' & Hreq').
      unfold gemini_loop in Hl. rewrite Hl. rewrite <- app_assoc.
      eexists _, _. split; [reflexivity|]. split.
      * rewrite count_calls_app, count_calls_call, Hc. simpl. lia.
      * intros e He Hcall. apply elem_of_app in He as [He|He]; auto.
    + eexists _, _. split; [reflexivity|]. split; [|exact Hreq].
      rewrite count_calls_call, Hc. simpl. lia.
Qed.

(** The sleeps of the attempts [a], ..., [a + n - 1], the last of which
    is the last allowed one. *)
Lemma loop_sleep_bound (n : nat) :
  0 ≤ retry_delay → 0 ≤ success_delay →
  ∀ (a : nat) (t : list event),
    Z.of_nat (a + S n) = max_retries →
    ∃ evs r,
      loop_ (Z.of_nat <$> seq a (S n)) t = ((t ++ evs)%list, r)
      ∧ total_sleep evs
        ≤ retry_delay * (2 ^ (max_retries - 1) - 2 ^ Z.of_nat a) + success_delay.
Proof.
  intros Hrd Hsd. induction n as [|n IH]; intros a t Hm.
  - cbn [seq fmap list_fmap].
    destruct (attempt_summary (Z.of_nat a) t)
      as (evs & r & Hrun & _ & _ & Hnone & Hsome).
    unfold gemini_loop. simpl. unfold bind. rewrite Hrun.
    replace (max_retries - 1) with (Z.of_nat a) by lia.
    destruct r as [[v|]|e].
    + unfold ret. eexists _, _. split; [reflexivity|].
      simpl. destruct Hsome as [Hs | [_ Hs]]; [discriminate | | ]; lia.
    + destruct (Hnone eq_refl) as [Hlt _]. lia.
    + eexists _, _. split; [reflexivity|].
      simpl. destruct Hsome as [Hs | [_ Hs]]; [discriminate | | ]; lia.
  - cbn [seq fmap list_fmap].
    destruct (attempt_summary (Z.of_nat a) t)
      as (evs & r & Hrun & _ & _ & Hnone & Hsome).
    assert (Hpow : 2 ^ Z.of_nat a ≤ 2 ^ (max_retries - 1))
      by (apply Z.pow_le_mono_r; lia).
    assert (Hmul : 0 ≤ retry_delay * (2 ^ (max_retries - 1) - 2 ^ Z.of_nat a))
      by (apply Z.mul_nonneg_nonneg; lia).
    destruct r as [[v|]|e].
    + rewrite (loop_return _ _ _ _ _ _ _ _ _ _ Hrun).
      eexists _, _. split; [reflexivity|].
      simpl. destruct Hsome as [Hs | [_ Hs]]; [discriminate | | ]; lia.
    + rewrite (loop_continue _ _ _ _ _ _ _ _ _ Hrun).
      destruct (IH (S a) (t ++ GenerateContent req :: evs)%list ltac:(lia))
        as (evs' & r' & Hl & Hb).
      cbn [seq fmap list_fmap] in Hl. rewrite Hl. rewrite <- app_assoc.
      eexists _, _. split; [reflexivity|].
      destruct (Hnone eq_refl) as [_ Hs].
      change (GenerateContent req :: evs) with ([GenerateContent req] ++ evs)%list.
      rewrite !total_sleep_app, Hs. simpl total_sleep.
      replace (Z.of_nat (S a)) with (Z.succ (Z.of_nat a)) in Hb by lia.
      rewrite Z.pow_succ_r in Hb by lia. lia.
    + unfold gemini_loop. simpl. unfold bind. rewrite Hrun.
      eexists _, _. split; [reflexivity|].
      simpl. destruct Hsome as [Hs | [_ Hs]]; [discriminate | | ]; lia.
Qed.
End gemini_bounds.

Lemma range_length (n : Z) : length (range n) = Z.to_nat n.
Proof. unfold range. rewrite length_fmap, length_seq. reflexivity. Qed.

(** X1.  With [max_retries <= 0] the loop body never runs: once the
    steps before the loop have completed, the function returns [None]
    without calling the model, sleeping or logging. *)
Theorem gemini_no_attempts (w : World) (title body : string) (req : request)
    (max_retries retry_delay success_delay : Z) (t : list event) :
  gemini_setup w title body t = (t, Return req) →
  max_retries ≤ 0 →
  getGeminiResponse w title body max_retries retry_delay success_delay t
  = (t, Return None).
Proof.
  intros Hs Hle. rewrite (gemini_run _ _ _ req) by exact Hs.
  unfold range. replace (Z.to_nat max_retries) with 0%nat by lia.
  reflexivity.
Qed.

(** X2.  Whatever the model does, an invocation calls it at most
    [max_retries] times, and every call sends the same request: the one
    built from the title, the body and prompt.md. *)
Theorem gemini_call_bound (w : World) (title body sys : string)
    (max_retries retry_delay success_delay : Z) (t : list event) :
  prompt_md w = Some sys →
  ∃ evs r,
    getGeminiResponse w title body max_retries retry_delay success_delay t
    = ((t ++ evs)%list, r)
    ∧ (count_calls evs ≤ Z.to_nat max_retries)%nat
    ∧ ∀ e, e ∈ evs → is_model_call e = true →
           e = GenerateContent (gemini_request w title body sys).
Proof.
  intros Hp.
  destruct (gemini_setup_cases w title body sys t Hp) as [Hs | [e Hs]].
  - rewrite (gemini_run _ _ _ _ _ _ _ _ Hs).
    destruct (loop_calls w (gemini_request w title body sys) max_retries retry_delay
                success_delay (range max_retries) t)
      as (evs & r & Hl & Hc & Hreq).
    rewrite Hl. rewrite range_length in Hc.
    destruct r as [[v|]|e]; eexists _, _; (split; [reflexivity|]); auto.
  - rewrite (gemini_setup_raises _ _ _ _ _ _ _ _ Hs).
    exists [], (Raise e). rewrite app_nil_r. split; [reflexivity|].
    split; [unfold count_calls; simpl; lia|]. intros ev Hev. inversion Hev.
Qed.

(** X3.  With non-negative delays and at least one attempt allowed, an
    invocation sleeps at most
    [retry_delay * (2^(max_retries-1) - 1) + success_delay] seconds in
    all (18 seconds with the defaults 3, 5, 3). *)
Theorem gemini_sleep_bound (w : World) (title body sys : string)
    (max_retries retry_delay success_delay : Z) (t : list event) :
  prompt_md w = Some sys →
  1 ≤ max_retries →
  0 ≤ retry_delay →
  0 ≤ success_delay →
  ∃ evs r,
    getGeminiResponse w title body max_retries retry_delay success_delay t
    = ((t ++ evs)%list, r)
    ∧ total_sleep evs
      ≤ retry_delay * (2 ^ (max_retries - 1) - 1) + success_delay.
Proof.
  intros Hp Hm Hrd Hsd.
  destruct (gemini_setup_cases w title body sys t Hp) as [Hs | [e Hs]].
  - rewrite (gemini_run _ _ _ _ _ _ _ _ Hs).
    destruct (loop_sleep_bound w (gemini_request w title body sys) max_retries
                retry_delay success_delay (Z.to_nat max_retries - 1) Hrd Hsd 0 t
                ltac:(lia))
      as (evs & r & Hl & Hb).
    unfold range.
    replace (Z.to_nat max_retries) with (S (Z.to_nat max_retries - 1)) by lia.
    rewrite Hl. change (2 ^ Z.of_nat 0) with 1 in Hb.
    destruct r as [[v|]|e]; eexists _, _; (split; [reflexivity|]); exact Hb.
  - rewrite (gemini_setup_raises _ _ _ _ _ _ _ _ Hs).
    exists [], (Raise e). rewrite app_nil_r. split; [reflexivity|].
    simpl. assert (1 ≤ 2 ^ (max_retries - 1)) by (apply Z.pow_le_mono_r with (b:=0); lia).
    nia.
Qed.




(** ** The substring test and the classification of errors *)

Lemma append_assoc (a b c : string) : (a +:+ b) +:+ c = a +:+ b +:+ c.
Proof.
  induction a as [|x a IH]; [reflexivity|].
  rewrite !append_cons, IH. reflexivity.
Qed.

Lemma prefix_elim (s : string) :
  ∀ h, String.prefix s h = true → ∃ after, h = s +:+ after.
Proof.
  induction s as [|a s IH]; intros h Hp.
  - exists h. reflexivity.
  - destruct h as [|b h]; simpl in Hp; [discriminate|].
    destruct (Ascii.ascii_dec a b) as [->|]; [|discriminate].
    destruct (IH h Hp) as [after ->]. exists after. reflexivity.
Qed.

Lemma str_in_occurs (needle hay : string) :
  str_in needle hay = true ↔ occurs_in needle hay.
Proof.
  split.
  - induction hay as [|c hay IH]; rewrite str_in_unfold; intros Hs;
      apply orb_true_iff in Hs as [Hp|Hs]; try discriminate.
    + destruct (prefix_elim _ _ Hp) as [after ->].
      exists EmptyString, after. reflexivity.
    + destruct (prefix_elim _ _ Hp) as [after Ha].
      exists EmptyString, after. exact Ha.
    + destruct (IH Hs) as (before & after & ->).
      exists (String c before), after. reflexivity.
  - intros (before & after & ->). apply str_in_app_r, str_in_app_l.
Qed.

Lemma occurs_in_trans (a b c : string) :
  occurs_in a b → occurs_in b c → occurs_in a c.
Proof.
  intros (p & q & ->) (p' & q' & ->).
  exists (p' +:+ p), (q +:+ q'). rewrite !append_assoc. reflexivity.
Qed.

Lemma str_in_trans (a b c : string) :
  str_in a b = true → str_in b c = true → str_in a c = true.
Proof. rewrite !str_in_occurs. apply occurs_in_trans. Qed.

(** X7.  An error is taken for transient exactly when one of the four
    markers occurs somewhere in its message, at any position. *)
Theorem is_transient_iff_marker_occurs (error_message : string) :
  is_transient error_message = true
  ↔ ∃ marker, marker ∈ ["503"; "429"; "UNAVAILABLE"; "RESOURCE_EXHAUSTED"]
              ∧ occurs_in marker error_message.
Proof.
  unfold is_transient, transient_markers. rewrite existsb_exists.
  split; intros (marker & Hin & Hocc); exists marker.
  - split; [apply list_elem_of_In, Hin | apply str_in_occurs, Hocc].
  - split; [apply list_elem_of_In, Hin | apply str_in_occurs, Hocc].
Qed.

(** ** The renderer: what it accepts and what the document holds *)

Lemma join_empty_cons (x : string) (xs : list string) :
  join EmptyString (x :: xs) = x +:+ join EmptyString xs.
Proof.
  destruct xs as [|y xs]; [|reflexivity].
  simpl. rewrite append_nil_r. reflexivity.
Qed.

Lemma join_empty_app (xs ys : list string) :
  join EmptyString (xs ++ ys) = join EmptyString xs +:+ join EmptyString ys.
Proof.
  induction xs as [|x xs IH]; [reflexivity|].
  rewrite <- app_comm_cons, !join_empty_cons, IH, append_assoc. reflexivity.
Qed.

Lemma html_7_ends_with_href : ∃ before, html_7 = before +:+ "<a href=" +:+ dq.
Proof.
  exists (String.substring 0 (String.length html_7 - 9) html_7).
  vm_compute. reflexivity.
Qed.

Lemma html_8_starts_with_quote : ∃ after, html_8 = dq +:+ after.
Proof.
  exists (String.substring 1 (String.length html_8 - 1) html_8).
  vm_compute. reflexivity.
Qed.

Section render_extra_facts.
Context {json_lib : PyJson}.

Lemma term_html_of_dict (m : gmap string json) (vt vd : json) (t : list event) :
  m !! "term" = Some vt → m !! "definition" = Some vd →
  term_html (JDict m) t
  = (t, Return (term_html_0 +:+ py_str vt +:+ term_html_1 +:+
                py_str vd +:+ term_html_2)).
Proof.
  intros Ht Hd. unfold term_html, bind, lift, ret. cbn [py_getitem].
  rewrite Ht, Hd. reflexivity.
Qed.

Lemma map_M_term_html_app (l1 l2 : list json) (t : list event) :
  (∀ y1 y2, map_M term_html l1 t = (t, Return y1) →
            map_M term_html l2 t = (t, Return y2) →
            map_M term_html (l1 ++ l2) t = (t, Return (y1 ++ y2)%list))
  ∧ (∀ e, map_M term_html l1 t = (t, Raise e) →
          map_M term_html (l1 ++ l2) t = (t, Raise e)).
Proof.
  induction l1 as [|x l1 [IHok IHerr]].
  - split.
    + intros y1 y2 [= <-] H2. exact H2.
    + intros e [=].
  - destruct (term_html_pure x) as [r Hr].
    split.
    + intros y1 y2 H1 H2. simpl in *. unfold bind in *. rewrite Hr in *.
      destruct r as [y|e]; [|discriminate].
      destruct (map_M term_html l1 t) as [t1 [ys|e]] eqn:E1; [|discriminate].
      unfold ret in H1. injection H1 as -> <-.
      rewrite (IHok ys y2 eq_refl H2). reflexivity.
    + intros e H1. simpl in *. unfold bind in *. rewrite Hr in *.
      destruct r as [y|e']; [|exact H1].
      destruct (map_M term_html l1 t) as [t1 [ys|e']] eqn:E1; [discriminate|].
      injection H1 as -> ->.
      rewrite (IHerr e eq_refl). reflexivity.
Qed.

(** X8.  The blocks of the key terms are rendered one by one and joined
    in the order of the list: the rendering of [l1 ++ l2] is the
    rendering of [l1] followed by that of [l2], the empty list renders
    to the empty text, and when an entry of [l1] fails, its error is the
    error of the whole list. *)
Theorem key_terms_html_concat (l1 l2 : list json) (t : list event) :
  generate_key_terms_html (JList []) t = (t, Return EmptyString)
  ∧ (∀ h1 h2,
       generate_key_terms_html (JList l1) t = (t, Return h1) →
       generate_key_terms_html (JList l2) t = (t, Return h2) →
       generate_key_terms_html (JList (l1 ++ l2)) t = (t, Return (h1 +:+ h2)))
  ∧ (∀ e,
       generate_key_terms_html (JList l1) t = (t, Raise e) →
       generate_key_terms_html (JList (l1 ++ l2)) t = (t, Raise e)).
Proof.
  destruct (map_M_term_html_app l1 l2 t) as [Hok Herr].
  split; [reflexivity|]. split.
  - intros h1 h2.
    unfold generate_key_terms_html, bind, lift, ret. cbn [py_iter].
    destruct (map_M term_html l1 t) as [t1 [y1|e1]] eqn:E1; [|discriminate].
    destruct (map_M term_html l2 t) as [t2 [y2|e2]] eqn:E2; [|discriminate].
    intros [= -> <-] [= -> <-].
    rewrite (Hok y1 y2 eq_refl eq_refl), join_empty_app. reflexivity.
  - intros e.
    unfold generate_key_terms_html, bind, lift, ret. cbn [py_iter].
    destruct (map_M term_html l1 t) as [t1 [y1|e1]] eqn:E1; [discriminate|].
    intros [= -> ->]. rewrite (Herr e eq_refl). reflexivity.
Qed.

Lemma map_M_term_html_complete (entries : list json) (t : list event) :
  Forall complete_entry entries →
  ∃ ys, map_M term_html entries t = (t, Return ys)
        ∧ ∀ m vt vd, JDict m ∈ entries →
                     m !! "term" = Some vt → m !! "definition" = Some vd →
                     (term_html_0 +:+ py_str vt +:+ term_html_1 +:+
                      py_str vd +:+ term_html_2) ∈ ys.
Proof.
  induction 1 as [|x entries [Hx1 Hx2] Hall (ys & Hys & Hin)].
  - exists []. split; [reflexivity|]. intros m vt vd Hm. inversion Hm.
  - destruct x as [| | | | | |m]; try contradiction.
    destruct Hx1 as [vt Hvt], Hx2 as [vd Hvd].
    eexists. split.
    + simpl. unfold bind. rewrite (term_html_of_dict m vt vd t Hvt Hvd), Hys.
      reflexivity.
    + intros m' vt' vd' Hm Ht Hd.
      apply elem_of_cons in Hm as [[= ->] | Hm].
      * rewrite Hvt in Ht. rewrite Hvd in Hd.
        injection Ht as <-. injection Hd as <-. left.
      * right. eapply Hin; eassumption.
Qed.

Lemma map_M_term_html_returns (entries : list json) (t t' : list event)
    (ys : list string) :
  map_M term_html entries t = (t', Return ys) → Forall complete_entry entries.
Proof.
  revert t t' ys. induction entries as [|x entries IH]; intros t t' ys Hrun.
  - constructor.
  - simpl in Hrun. unfold bind in Hrun.
    destruct (term_html_cases x t) as [(Ht & Hd & s & Hs) | (_ & e & He & _)].
    + rewrite Hs in Hrun.
      destruct (map_M term_html entries t) as [t1 [zs|e]] eqn:E; [|discriminate].
      constructor; [split; assumption | eapply IH, E].
    + rewrite He in Hrun. discriminate.
Qed.

Lemma render_template_of_dict (d : gmap string json) (url : string)
    (v1 v2 v3 v4 v5 v6 kt : json) (kh : string) (t : list event) :
  d !! "title" = Some v1 → d !! "summary" = Some v2 → d !! "meaning" = Some v3 →
  d !! "importance" = Some v4 → d !! "impact_on_us" = Some v5 →
  d !! "food_for_thought" = Some v6 → d !! "key_terms" = Some kt →
  generate_key_terms_html kt t = (t, Return kh) →
  render_template (JDict d) url t
  = (t, Return (html_0 +:+ py_str v1 +:+ html_1 +:+ py_str v2 +:+
                html_2 +:+ py_str v3 +:+ html_3 +:+ py_str v4 +:+
                html_4 +:+ py_str v5 +:+ html_5 +:+ py_str v6 +:+
                html_6 +:+ kh +:+ html_7 +:+ url +:+ html_8)).
Proof.
  intros H1 H2 H3 H4 H5 H6 H7 Hk.
  unfold render_template, bind, lift, ret. cbn [py_getitem].
  rewrite H1, H2, H3, H4, H5, H6, H7, Hk. reflexivity.
Qed.

(** X9.  For an object that has the seven keys and whose key terms are a
    list of entries with both fields, the renderer returns a document,
    and the document holds the text of each of the six fields, the link
    [<a href="article_url"], and the term and the definition of every
    entry. *)
Theorem render_complete_payload (response article_url : string)
    (d : gmap string json) (v1 v2 v3 v4 v5 v6 : json) (entries : list json)
    (t : list event) :
  json_loads response = Return (JDict d) →
  d !! "title" = Some v1 → d !! "summary" = Some v2 → d !! "meaning" = Some v3 →
  d !! "importance" = Some v4 → d !! "impact_on_us" = Some v5 →
  d !! "food_for_thought" = Some v6 → d !! "key_terms" = Some (JList entries) →
  Forall complete_entry entries →
  ∃ html,
    convertToHtml response article_url t = (t, Return html)
    ∧ Forall (λ v, str_in (py_str v) html = true) [v1; v2; v3; v4; v5; v6]
    ∧ str_in ("<a href=" +:+ dq +:+ article_url +:+ dq) html = true
    ∧ ∀ m vt vd, JDict m ∈ entries →
                 m !! "term" = Some vt → m !! "definition" = Some vd →
                 str_in (py_str vt) html = true ∧ str_in (py_str vd) html = true.
Proof.
  intros Hload H1 H2 H3 H4 H5 H6 H7 Hall.
  destruct (map_M_term_html_complete entries t Hall) as (ys & Hys & Hin).
  assert (Hk : generate_key_terms_html (JList entries) t
               = (t, Return (join EmptyString ys))).
  { unfold generate_key_terms_html, bind, lift, ret. cbn [py_iter].
    rewrite Hys. reflexivity. }
  eexists. split.
  - unfold convertToHtml. unfold bind at 1. unfold lift at 1. rewrite Hload.
    unfold bind at 1.
    rewrite (check_keys_pass (JDict d) required_keys t).
    2:{ apply Forall_forall. intros k Hkk. apply dict_contains_true.
        apply list_elem_of_In in Hkk. simpl in Hkk.
        destruct Hkk as [<-|[<-|[<-|[<-|[<-|[<-|[<-|[]]]]]]]]; eauto. }
    apply (render_template_of_dict d article_url v1 v2 v3 v4 v5 v6 _ _ t
             H1 H2 H3 H4 H5 H6 H7 Hk).
  - split; [|split].
    + repeat constructor;
        repeat first [apply str_in_app_l | apply str_in_app_r].
    + do 14 apply str_in_app_r.
      destruct html_7_ends_with_href as [p ->].
      destruct html_8_starts_with_quote as [r ->].
      apply str_in_occurs. exists p, r. rewrite !append_assoc. reflexivity.
    + intros m vt vd Hm Ht Hd.
      assert (Hblock : str_in (term_html_0 +:+ py_str vt +:+ term_html_1 +:+
                               py_str vd +:+ term_html_2)
                         (join EmptyString ys) = true)
        by (apply str_in_join, (Hin m vt vd Hm Ht Hd)).
      split.
      * eapply str_in_trans; [|do 13 apply str_in_app_r; apply str_in_app_l].
        eapply str_in_trans; [|exact Hblock].
        apply str_in_app_r, str_in_app_l.
      * eapply str_in_trans; [|do 13 apply str_in_app_r; apply str_in_app_l].
        eapply str_in_trans; [|exact Hblock].
        do 3 apply str_in_app_r. apply str_in_app_l.
Qed.
End render_extra_facts.

Section render_converse.
Context {json_lib : PyJson}.

Lemma check_keys_returns (d : gmap string json) (t t' : list event)
    (r : option unit) :
  for_each required_keys (check_key (JDict d)) t = (t', Return r) →
  ∀ k, k ∈ required_keys → is_Some (d !! k).
Proof.
  intros Hrun.
  destruct (decide (Exists (λ k, ¬ is_Some (d !! k)) required_keys)) as [HE|HE].
  - destruct (first_split (λ k, ¬ is_Some (d !! k)) required_keys HE)
      as (before & k & after & Heq & Hb & Hk).
    rewrite Heq in Hrun.
    rewrite (check_keys_missing (JDict d) before k after t) in Hrun.
    + discriminate Hrun.
    + eapply Forall_impl; [exact Hb|]. intros k' Hk'.
      simpl in Hk'. apply dict_contains_true.
      destruct (decide (is_Some (d !! k'))); [assumption | contradiction].
    + apply dict_contains_false. destruct (d !! k) eqn:E; [|reflexivity].
      exfalso. apply Hk. eauto.
  - intros k Hk. destruct (decide (is_Some (d !! k))) as [|Hn]; [assumption|].
    exfalso. apply HE. apply Exists_exists. eauto.
Qed.

(** X10.  A document comes out only of a complete object: whenever
    [convertToHtml] returns, the response parsed to a JSON object that
    has the seven required keys, and its key terms can be iterated and
    every entry has a term and a definition.  Any other response ends in
    an exception. *)
Theorem render_returns_only_for_complete_object (response article_url : string)
    (t t' : list event) (html : string) :
  convertToHtml response article_url t = (t', Return html) →
  ∃ d kt items,
    json_loads response = Return (JDict d)
    ∧ (∀ k, k ∈ required_keys → is_Some (d !! k))
    ∧ d !! "key_terms" = Some kt
    ∧ py_iter kt = Return items
    ∧ Forall complete_entry items.
Proof.
  unfold convertToHtml. unfold bind at 1. unfold lift at 1.
  destruct (json_loads response) as [j|e]; [|discriminate].
  unfold bind at 1.
  destruct (for_each required_keys (check_key j) t) as [t1 [r|e]] eqn:Echk;
    [|discriminate].
  intros Hrun.
  assert (Hobj : is_object j).
  { destruct j; try exact I;
      unfold render_template, bind, lift in Hrun; simpl in Hrun; discriminate. }
  destruct j as [| | | | | |d]; try contradiction.
  pose proof (check_keys_returns d t t1 r Echk) as Hall.
  exists d.
  unfold render_template, bind, lift, ret in Hrun. cbn [py_getitem] in Hrun.
  destruct (Hall "title") as [v1 E1]; [apply list_elem_of_In; simpl; tauto|].
  destruct (Hall "summary") as [v2 E2]; [apply list_elem_of_In; simpl; tauto|].
  destruct (Hall "meaning") as [v3 E3]; [apply list_elem_of_In; simpl; tauto|].
  destruct (Hall "importance") as [v4 E4]; [apply list_elem_of_In; simpl; tauto|].
  destruct (Hall "impact_on_us") as [v5 E5]; [apply list_elem_of_In; simpl; tauto|].
  destruct (Hall "food_for_thought") as [v6 E6]; [apply list_elem_of_In; simpl; tauto|].
  destruct (Hall "key_terms") as [kt E7]; [apply list_elem_of_In; simpl; tauto|].
  rewrite E1, E2, E3, E4, E5, E6, E7 in Hrun.
  unfold generate_key_terms_html, bind, lift, ret in Hrun.
  destruct (py_iter kt) as [items|e] eqn:Eit; [|discriminate].
  destruct (map_M term_html items t1) as [t2 [ys|e]] eqn:Emap; [|discriminate].
  exists kt, items.
  split; [reflexivity|]. split; [exact Hall|]. split; [exact E7|].
  split; [exact Eit|]. eapply map_M_term_html_returns, Emap.
Qed.
End render_converse.

(** ** The fetch functions: when they return *)

Section fetch_extra_facts.
Context {tag : Type} {soup_lib : Soup tag}.

Lemma first_article_result (w : World) (press_code date ua : string)
    (resp : response) (t : list event) :
  requests_get w (listing_url press_code date) ua = Return resp →
  status_code resp = 200 →
  getFirstArticleUrl w press_code date ua t
  = ((t ++ [HttpGet (listing_url press_code date) ua])%list,
     match first_link (BeautifulSoup (text resp)) with
     | Some href => Return href
     | None => Raise (mk_exn Exception msg_no_link)
     end).
Proof.
  intros Hget Hst.
  rewrite (first_article_run w press_code date ua resp t Hget Hst).
  unfold first_link.
  destruct (find (BeautifulSoup (text resp)) _ _) as [brick|]; simpl; [|reflexivity].
  destruct (find brick _ _) as [ul|]; simpl; [|reflexivity].
  destruct (find ul _ _) as [li|]; simpl; [|reflexivity].
  destruct (find li _ _) as [a|]; simpl; reflexivity.
Qed.

Lemma first_article_bad_status (w : World) (press_code date ua : string)
    (resp : response) (t : list event) :
  requests_get w (listing_url press_code date) ua = Return resp →
  status_code resp ≠ 200 →
  getFirstArticleUrl w press_code date ua t
  = ((t ++ [HttpGet (listing_url press_code date) ua])%list,
     Raise (mk_exn Exception (msg_list_failed (status_code resp)))).
Proof.
  intros Hget Hst. unfold getFirstArticleUrl. run_m. rewrite Hget.
  rewrite bool_decide_eq_true_2 by exact Hst. reflexivity.
Qed.

Lemma article_content_run (w : World) (article_url ua : string)
    (resp : response) (t : list event) :
  requests_get w article_url ua = Return resp →
  status_code resp = 200 →
  getArticleContent w article_url ua t
  = ((t ++ [HttpGet article_url ua])%list,
     Return (article_title (BeautifulSoup (text resp)),
             article_body (BeautifulSoup (text resp)))).
Proof.
  intros Hget Hst. unfold getArticleContent, article_title, article_body.
  run_m. rewrite Hget, Hst. simpl.
  destruct (find (BeautifulSoup (text resp)) "div" (ByClass _)) as [td|];
    destruct (find (BeautifulSoup (text resp)) "div" (ById _)) as [bd|];
    reflexivity.
Qed.

(** X11.  When the transport answers, [getFirstArticleUrl] makes exactly
    one request, to the listing URL of the press code and the date.  It
    returns a link exactly when the status is 200 and the whole chain
    section, list, first item, first anchor, href is there, and the link
    is that href; any other status raises the exception that carries the
    status code. *)
Theorem first_article_returns_iff (w : World) (press_code date ua : string)
    (resp : response) (t : list event) :
  requests_get w (listing_url press_code date) ua = Return resp →
  (getFirstArticleUrl w press_code date ua t).1
  = (t ++ [HttpGet (listing_url press_code date) ua])%list
  ∧ (∀ href,
       (getFirstArticleUrl w press_code date ua t).2 = Return href
       ↔ status_code resp = 200
         ∧ first_link (BeautifulSoup (text resp)) = Some href)
  ∧ (status_code resp ≠ 200 →
     (getFirstArticleUrl w press_code date ua t).2
     = Raise (mk_exn Exception (msg_list_failed (status_code resp)))).
Proof.
  intros Hget.
  destruct (decide (status_code resp = 200)) as [Hst|Hst].
  - rewrite (first_article_result w press_code date ua resp t Hget Hst).
    split; [reflexivity|]. split; [|contradiction].
    intros href. simpl.
    destruct (first_link (BeautifulSoup (text resp))) as [h|].
    + split; [intros [= ->]; auto | intros [_ [= ->]]; reflexivity].
    + split; [discriminate | intros [_ [=]]].
  - rewrite (first_article_bad_status w press_code date ua resp t Hget Hst).
    split; [reflexivity|]. split; [|reflexivity].
    intros href. simpl. split; [discriminate | intros [? _]; contradiction].
Qed.

(** X12.  When the transport answers, [getArticleContent] makes exactly
    one request, to the URL it was given.  With status 200 it returns
    the title and the body read off the page (each the text of its
    container, or its placeholder); with any other status it raises the
    exception that carries the status code. *)
Theorem article_content_by_status (w : World) (article_url ua : string)
    (resp : response) (t : list event) :
  requests_get w article_url ua = Return resp →
  (getArticleContent w article_url ua t).1 = (t ++ [HttpGet article_url ua])%list
  ∧ (status_code resp = 200 →
     (getArticleContent w article_url ua t).2
     = Return (article_title (BeautifulSoup (text resp)),
               article_body (BeautifulSoup (text resp))))
  ∧ (status_code resp ≠ 200 →
     (getArticleContent w article_url ua t).2
     = Raise (mk_exn Exception (msg_page_failed (status_code resp)))).
Proof.
  intros Hget.
  destruct (decide (status_code resp = 200)) as [Hst|Hst].
  - rewrite (article_content_run w article_url ua resp t Hget Hst).
    split; [reflexivity|]. split; [reflexivity | contradiction].
  - unfold getArticleContent. run_m. rewrite Hget.
    rewrite bool_decide_eq_true_2 by exact Hst. simpl.
    split; [reflexivity|]. split; [contradiction | reflexivity].
Qed.
End fetch_extra_facts.

(** ** What a computation can append to the log *)

Lemma appends_ret {A} (P : event → Prop) (a : A) : appends P (ret a).
Proof. intros t. exists []. simpl. rewrite app_nil_r. auto. Qed.

Lemma appends_raise {A} (P : event → Prop) (e : exn) : appends P (raise (A:=A) e).
Proof. intros t. exists []. simpl. rewrite app_nil_r. auto. Qed.

Lemma appends_lift {A} (P : event → Prop) (r : result A) : appends P (lift r).
Proof. intros t. exists []. simpl. rewrite app_nil_r. auto. Qed.

Lemma appends_emit (P : event → Prop) (e : event) : P e → appends P (emit e).
Proof. intros He t. exists [e]. simpl. auto. Qed.

Lemma appends_pure {A} (P : event → Prop) (m : M A) : pure_m m → appends P m.
Proof. intros [r Hr] t. exists []. rewrite Hr, app_nil_r. auto. Qed.

Lemma appends_mono {A} (P Q : event → Prop) (m : M A) :
  (∀ e, P e → Q e) → appends P m → appends Q m.
Proof.
  intros HPQ Hm t. destruct (Hm t) as (evs & Ht & Hall).
  exists evs. split; [exact Ht|]. eapply Forall_impl; eauto.
Qed.

Lemma appends_bind {A B} (P : event → Prop) (m : M A) (k : A → M B) :
  appends P m →
  (∀ a, (∃ t, (m t).2 = Return a) → appends P (k a)) →
  appends P (bind m k).
Proof.
  intros Hm Hk t. destruct (Hm t) as (evs & Ht & Hall).
  unfold bind. destruct (m t) as [t1 [a|e]] eqn:E; simpl in Ht; subst t1.
  - assert (Hex : ∃ t0, (m t0).2 = Return a) by (exists t; rewrite E; reflexivity).
    destruct (Hk a Hex (t ++ evs)%list) as (evs' & Ht' & Hall').
    exists (evs ++ evs')%list. rewrite Ht', app_assoc.
    split; [reflexivity | apply Forall_app; auto].
  - exists evs. auto.
Qed.

Lemma appends_try {A} (P : event → Prop) (body : M A) (handler : exn → M A) :
  appends P body →
  (∀ e, (∃ t, (body t).2 = Raise e) → appends P (handler e)) →
  appends P (try_except body handler).
Proof.
  intros Hb Hh t. destruct (Hb t) as (evs & Ht & Hall).
  unfold try_except. destruct (body t) as [t1 [a|e]] eqn:E; simpl in Ht; subst t1.
  - exists evs. auto.
  - assert (Hex : ∃ t0, (body t0).2 = Raise e) by (exists t; rewrite E; reflexivity).
    destruct (Hh e Hex (t ++ evs)%list) as (evs' & Ht' & Hall').
    exists (evs ++ evs')%list. rewrite Ht', app_assoc.
    split; [reflexivity | apply Forall_app; auto].
Qed.

Lemma appends_for_each {A R} (P : event → Prop) (xs : list A)
    (body : A → M (option R)) :
  (∀ x, appends P (body x)) → appends P (for_each xs body).
Proof.
  intros Hb. induction xs as [|x xs IH]; simpl.
  - apply appends_ret.
  - apply appends_bind; [apply Hb|]. intros [v|] _; [apply appends_ret | exact IH].
Qed.

(** ** The whole run *)

Section run_facts.
Context {tag : Type} {soup_lib : Soup tag} {json_lib : PyJson}.

Lemma publish_is_post_of (w : World) (today html : string) :
  publish w today html
  = try_except
      (logger INFO "API 포스트 생성 시작" ;;;
       emit (CreatePost (post_of w today html)) ;;;
       lift (create_post w (post_of w today html)) ;;;
       logger INFO "API 포스트 생성 완료")
      (λ e,
         match exn_cls e with
         | ApiError =>
             let error_message := msg_api_error (exn_arg e) in
             emit (TelegramTest error_message) ;;;
             lift (send_test_message w error_message) ;;;
             logger ERROR ("API 포스트 생성 오류: " +:+ exn_arg e)
         | _ => raise e
         end).
Proof. reflexivity. Qed.

Lemma publish_body_raises (w : World) (p : post) (e : exn) (t : list event) :
  ((logger INFO "API 포스트 생성 시작" ;;;
    emit (CreatePost p) ;;;
    lift (create_post w p) ;;;
    logger INFO "API 포스트 생성 완료") t).2 = Raise e →
  create_post w p = Raise e.
Proof.
  run_m. destruct (create_post w p) as [[]|e']; simpl; congruence.
Qed.

Lemma log_event_ok (w : World) (today : string) (lvl : level) (msg : string) :
  post_event_ok w today (Log lvl msg) ∧ notify_event_ok w (Log lvl msg).
Proof. split; intros x [=]. Qed.

Lemma appends_logger (P : event → Prop) (lvl : level) (msg : string) :
  P (Log lvl msg) → appends P (logger lvl msg).
Proof. intros HP. apply appends_emit, HP. Qed.

Lemma publish_appends (w : World) (today response url html : string) :
  (convertToHtml response url []).2 = Return html →
  appends (λ e, post_event_ok w today e ∧ notify_event_ok w e)
          (publish w today html).
Proof.
  intros Hrender. rewrite publish_is_post_of.
  apply appends_try.
  - apply appends_bind; [apply appends_logger, log_event_ok|]. intros _ _.
    apply appends_bind.
    { apply appends_emit. split.
      - intros p [= <-]. eauto.
      - intros msg [=]. }
    intros _ _.
    apply appends_bind; [apply appends_lift|]. intros _ _.
    apply appends_logger, log_event_ok.
  - intros e [t He]. apply publish_body_raises in He.
    destruct (exn_cls e) eqn:Ecls; try apply appends_raise.
    apply appends_bind.
    { apply appends_emit. split.
      - intros p [=].
      - intros msg [= <-]. eauto. }
    intros _ _.
    apply appends_bind; [apply appends_lift|]. intros _ _.
    apply appends_logger, log_event_ok.
Qed.

Lemma first_article_appends (P : event → Prop) (w : World)
    (press_code date ua : string) :
  (∀ url, P (HttpGet url ua)) →
  appends P (getFirstArticleUrl w press_code date ua).
Proof.
  intros HP. unfold getFirstArticleUrl.
  apply appends_bind; [apply appends_emit, HP|]. intros _ _.
  apply appends_bind; [apply appends_lift|]. intros resp _.
  destruct (bool_decide _); [apply appends_raise|].
  repeat (apply appends_bind;
          [unfold find_if; match goal with
                           | |- appends _ (if ?c then _ else _) => destruct c
                           end;
           first [apply appends_lift | apply appends_ret]
          | intros ? _]).
  destruct (negb _); [apply appends_raise | apply appends_lift].
Qed.

Lemma article_content_appends (P : event → Prop) (w : World) (url ua : string) :
  P (HttpGet url ua) →
  appends P (getArticleContent w url ua).
Proof.
  intros HP. unfold getArticleContent.
  apply appends_bind; [apply appends_emit, HP|]. intros _ _.
  apply appends_bind; [apply appends_lift|]. intros resp _.
  destruct (bool_decide _); [apply appends_raise|].
  repeat (apply appends_bind;
          [match goal with
           | |- appends _ (if ?c then _ else _) => destruct c
           end;
           first [apply appends_lift | apply appends_ret]
          | intros ? _]).
  apply appends_ret.
Qed.

Lemma time_sleep_appends (P : event → Prop) (secs : Z) :
  P (Sleep secs) → appends P (time_sleep secs).
Proof.
  intros HP. unfold time_sleep.
  destruct (_ || _); [apply appends_raise|].
  destruct (secs <? 0); [apply appends_raise | apply appends_emit, HP].
Qed.

Lemma gemini_appends (P : event → Prop) (w : World) (title body : string)
    (max_retries retry_delay success_delay : Z) :
  (∀ req, P (GenerateContent req)) →
  (∀ secs, P (Sleep secs)) →
  (∀ lvl msg, P (Log lvl msg)) →
  appends P (getGeminiResponse w title body max_retries retry_delay success_delay).
Proof.
  intros Hgen Hsleep Hlog. unfold getGeminiResponse.
  apply appends_bind.
  { unfold gemini_setup.
    apply appends_bind; [apply appends_lift|]. intros _ _.
    apply appends_bind; [apply appends_lift|]. intros system_prompt _.
    apply appends_ret. }
  intros req _.
  apply appends_bind.
  2:{ intros [v|] _; apply appends_ret. }
  unfold gemini_loop. apply appends_for_each. intros attempt.
  unfold gemini_attempt. apply appends_try.
  - unfold gemini_try.
    apply appends_bind; [apply appends_emit, Hgen|]. intros _ _.
    apply appends_bind; [apply appends_lift|]. intros s _.
    apply appends_bind; [apply time_sleep_appends, Hsleep|]. intros _ _.
    apply appends_bind; [apply appends_logger, Hlog|]. intros _ _.
    apply appends_ret.
  - intros e _. unfold gemini_except.
    destruct (is_transient _).
    + apply appends_bind; [apply appends_logger, Hlog|]. intros _ _.
      destruct (_ <? _).
      * apply appends_bind; [apply time_sleep_appends, Hsleep|]. intros _ _.
        apply appends_ret.
      * apply appends_bind; [apply appends_logger, Hlog|]. intros _ _.
        apply appends_ret.
    + apply appends_bind; [apply appends_logger, Hlog|]. intros _ _.
      apply appends_ret.
Qed.

Lemma pipeline_appends (w : World) (press_code : option string)
    (today today_str ua : string) :
  appends (λ e, post_event_ok w today e ∧ notify_event_ok w e)
          (pipeline w press_code today today_str ua).
Proof.
  unfold pipeline.
  apply appends_bind.
  { apply first_article_appends. intros url. split; intros x [=]. }
  intros article_url _.
  apply appends_bind; [apply appends_logger, log_event_ok|]. intros _ _.
  apply appends_bind.
  { apply article_content_appends. split; intros x [=]. }
  intros tb _.
  apply appends_bind; [apply appends_logger, log_event_ok|]. intros _ _.
  apply appends_bind; [apply appends_logger, log_event_ok|]. intros _ _.
  apply appends_bind.
  { apply gemini_appends; intros; split; intros x [=]. }
  intros [response|] _.
  - apply appends_bind; [apply appends_logger, log_event_ok|]. intros _ _.
    apply appends_bind; [apply appends_pure, convertToHtml_pure|].
    intros html [t0 Hrender].
    apply appends_bind; [apply appends_logger, log_event_ok|]. intros _ _.
    apply (publish_appends w today response article_url html).
    destruct (convertToHtml_pure response article_url) as [r Hr].
    rewrite Hr in Hrender. rewrite Hr. exact Hrender.
  - apply appends_bind; [apply appends_logger, log_event_ok|]. intros _ _.
    apply appends_raise.
Qed.

Lemma main_appends (w : World) :
  appends (λ e, post_event_ok w (today_dashed w) e ∧ notify_event_ok w e) (main w).
Proof.
  unfold main. destruct (negb _).
  - apply appends_bind; [apply appends_logger, log_event_ok|]. intros _ _.
    apply appends_raise.
  - apply appends_try; [apply pipeline_appends|].
    intros e _. apply appends_logger, log_event_ok.
Qed.

(** X13.  Only a finished document is posted: every post that a run
    sends to the post API carries a document that [convertToHtml]
    returned, under the title of the day, in the fixed category, by the
    fixed writer and without images. *)
Theorem main_posts_only_rendered (w : World) (t : list event) :
  ∃ evs,
    (main w t).1 = (t ++ evs)%list
    ∧ ∀ p, CreatePost p ∈ evs →
           post_title p = today_dashed w +:+ " 오늘의 어린이 뉴스"
           ∧ post_category p = "어린이뉴스"
           ∧ post_writer p = "admin"
           ∧ post_image_paths p = []
           ∧ ∃ response url,
               (convertToHtml response url []).2 = Return (post_content p).
Proof.
  destruct (main_appends w t) as (evs & Ht & Hall).
  exists evs. split; [exact Ht|].
  intros p Hp. rewrite Forall_forall in Hall.
  destruct (Hall _ Hp) as [Hpost _].
  destruct (Hpost p eq_refl) as (response & url & html & Hr & ->).
  repeat split; eauto.
Qed.

(** X14.  The notifier is used for nothing but a failed post: every
    notification of a run reports an exception of class [ApiError] that
    the post API raised, and its text ends with the message of that
    exception.  Failures of the earlier stages are logged only. *)
Theorem main_notifies_only_api_errors (w : World) (t : list event) :
  ∃ evs,
    (main w t).1 = (t ++ evs)%list
    ∧ ∀ msg, TelegramTest msg ∈ evs →
             ∃ p err, create_post w p = Raise err
                      ∧ exn_cls err = ApiError
                      ∧ msg = msg_api_error (exn_arg err).
Proof.
  destruct (main_appends w t) as (evs & Ht & Hall).
  exists evs. split; [exact Ht|].
  intros msg Hm. rewrite Forall_forall in Hall.
  destruct (Hall _ Hm) as [_ Hnotify]. exact (Hnotify msg eq_refl).
Qed.
End run_facts.

(** The start-up check covers the key of the model: with no required
    variable missing, the client can be built. *)
Lemma checked_env_has_key (w : World) :
  missing_vars w = [] → genai_client (environ w !! "GOOGLE_API_KEY") = Return tt.
Proof.
  intros Hm.
  destruct (environ w !! "GOOGLE_API_KEY") as [[|c k]|] eqn:E; [|reflexivity|];
    exfalso;
    assert (Hin : "GOOGLE_API_KEY" ∈ missing_vars w)
      by (apply elem_of_missing_vars; split;
          [apply list_elem_of_In; simpl; tauto | rewrite E; auto]);
    rewrite Hm in Hin; inversion Hin.
Qed.

Lemma gemini_first_try (w : World) (title body sys s : string) (t : list event) :
  genai_client (environ w !! "GOOGLE_API_KEY") = Return tt →
  prompt_md w = Some sys →
  generate_content w 0 (gemini_request w title body sys) = Return s →
  getGeminiResponse w title body default_max_retries default_retry_delay
    default_success_delay t
  = ((t ++ [GenerateContent (gemini_request w title body sys);
            Sleep default_success_delay; Log INFO msg_success])%list,
     Return (Some s)).
Proof.
  intros Hc Hp Hgen.
  rewrite (gemini_run _ _ _ _ _ _ _ _ (gemini_setup_ok w title body sys t Hc Hp)).
  change (range default_max_retries) with [Z.of_nat 0; 1; 2].
  rewrite (loop_return _ _ _ _ _ _ _ _ _ _
             (attempt_success w _ default_max_retries default_retry_delay
                default_success_delay 0 s t Hgen
                ltac:(unfold sleepable, default_success_delay, sleep_max; lia))).
  reflexivity.
Qed.

Section run_paths.
Context {tag : Type} {soup_lib : Soup tag} {json_lib : PyJson}.

Lemma main_env_ok (w : World) (t : list event) :
  missing_vars w = [] →
  main w t
  = try_except
      (pipeline w (getenv w "PRESS_CODE") (today_dashed w) (today_compact w)
         (ua_random w))
      (λ e, logger ERROR ("❌ 에러 발생: " +:+ str_exn e)) t.
Proof. intros Hm. unfold main. rewrite Hm. reflexivity. Qed.

Lemma main_env_bad (w : World) (t : list event) :
  missing_vars w ≠ [] →
  main w t
  = ((t ++ [Log ERROR (msg_missing_env (missing_vars w))])%list,
     Raise (mk_exn ValueError (msg_missing_env (missing_vars w)))).
Proof.
  intros Hm. unfold main. rewrite bool_decide_eq_false_2 by exact Hm. reflexivity.
Qed.

(** With the set-up calls completed the script is [main], run with the
    user agent that [ua.random] gave. *)
Lemma script_startup_completed (s : Startup) (w : World) (ua : string)
    (t : list event) :
  logger_util s = Return tt → load_dotenv s = Return tt →
  api_util s = Return tt → telegram_util s = Return tt →
  user_agent s = Return ua →
  script s w t
  = if negb (bool_decide (missing_vars w = []))
    then ((t ++ [Log ERROR (msg_missing_env (missing_vars w))])%list,
          Raise (mk_exn ValueError (msg_missing_env (missing_vars w))))
    else try_except
           (pipeline w (getenv w "PRESS_CODE") (today_dashed w) (today_compact w) ua)
           (λ e, logger ERROR ("❌ 에러 발생: " +:+ str_exn e)) t.
Proof.
  intros H1 H2 H3 H4 H5. unfold script. rewrite H1, H2, H3, H4, H5.
  destruct (negb _); reflexivity.
Qed.

Lemma script_is_main (s : Startup) (w : World) (t : list event) :
  logger_util s = Return tt → load_dotenv s = Return tt →
  api_util s = Return tt → telegram_util s = Return tt →
  user_agent s = Return (ua_random w) →
  script s w t = main w t.
Proof.
  intros H1 H2 H3 H4 H5.
  rewrite (script_startup_completed s w _ t H1 H2 H3 H4 H5).
  unfold main. destruct (negb _); reflexivity.
Qed.

(** A set-up call that raises ends the script with its exception, and
    nothing is logged: the calls are outside the [try]. *)
Lemma script_startup_failure (s : Startup) (w : World) (t : list event) :
  ¬ startup_completes s → missing_vars w = [] →
  ∃ e, script s w t = (t, Raise e).
Proof.
  intros Hbad Hm. unfold script. rewrite Hm.
  destruct s as [[[]|e1] [[]|e2] [[]|e3] [[]|e4] [ua|e5]]; simpl;
    try (eexists; reflexivity).
  contradiction Hbad. unfold startup_completes. simpl. eauto 10.
Qed.

(** X15.  In the runs in which the set-up calls of the script (the
    logger, [load_dotenv()], [ApiUtil()], [TelegramUtil()], [UserAgent()]
    and [ua.random]) complete, the script ends with an exception exactly
    when one of the seven required variables is unset or empty, and that
    exception is the [ValueError] of the start-up check.  With the seven
    variables set, whatever fails later is caught by the outer handler
    and the run ends normally. *)
Theorem script_raises_iff_env_incomplete (s : Startup) (w : World) (t : list event) :
  startup_completes s →
  ((∃ e, (script s w t).2 = Raise e)
   ↔ ∃ v, v ∈ required_env_vars
          ∧ (environ w !! v = None ∨ environ w !! v = Some EmptyString))
  ∧ ((script s w t).2 = Return tt
     ∨ (script s w t).2 = Raise (mk_exn ValueError (msg_missing_env (missing_vars w)))).
Proof.
  intros (H1 & H2 & H3 & H4 & ua & H5).
  rewrite (script_startup_completed s w ua t H1 H2 H3 H4 H5).
  destruct (missing_vars w) as [|v0 rest] eqn:Em.
  - simpl.
    assert (Hret : (try_except
                      (pipeline w (getenv w "PRESS_CODE") (today_dashed w)
                         (today_compact w) ua)
                      (λ e, logger ERROR ("❌ 에러 발생: " +:+ str_exn e)) t).2
                   = Return tt).
    { unfold try_except. destruct (pipeline _ _ _ _ _ t) as [t1 [[]|e]]; reflexivity. }
    split; [|left; exact Hret]. split.
    + intros [e He]. rewrite Hret in He. discriminate.
    + intros (v & Hin & Hv).
      assert (Hmiss : v ∈ missing_vars w) by (apply elem_of_missing_vars; auto).
      rewrite Em in Hmiss. inversion Hmiss.
  - simpl. split; [|right; reflexivity]. split.
    + intros _. exists v0. apply elem_of_missing_vars. rewrite Em. left.
    + intros _. eexists. reflexivity.
Qed.

Lemma pipeline_until_publish (w : World) (pc url sys answer html : string)
    (resp1 resp2 : response) (t : list event) :
  let listing := listing_url pc (today_compact w) in
  let title := article_title (BeautifulSoup (text resp2)) in
  let body := article_body (BeautifulSoup (text resp2)) in
  requests_get w listing (ua_random w) = Return resp1 →
  status_code resp1 = 200 →
  first_link (BeautifulSoup (text resp1)) = Some url →
  requests_get w url (ua_random w) = Return resp2 →
  status_code resp2 = 200 →
  genai_client (environ w !! "GOOGLE_API_KEY") = Return tt →
  prompt_md w = Some sys →
  generate_content w 0 (gemini_request w title body sys) = Return answer →
  (convertToHtml answer url []).2 = Return html →
  pipeline w (Some pc) (today_dashed w) (today_compact w) (ua_random w) t
  = publish w (today_dashed w) html
      (t ++ happy_prefix w listing url title body sys answer html)%list.
Proof.
  intros listing title body H1 H1s H1l H2 H2s Hc Hp Hgen Hrender.
  unfold pipeline. unfold bind at 1. cbn [str_opt default].
  rewrite (first_article_result w pc (today_compact w) (ua_random w) resp1 t H1 H1s).
  rewrite H1l.
  unfold bind at 1. unfold logger at 1, emit at 1.
  unfold bind at 1.
  rewrite (article_content_run w url (ua_random w) resp2 _ H2 H2s).
  cbn [fst snd]. fold title body.
  unfold bind at 1. unfold logger at 1, emit at 1.
  unfold bind at 1. unfold logger at 1, emit at 1.
  unfold bind at 1.
  rewrite (gemini_first_try w title body sys answer _ Hc Hp Hgen).
  unfold bind at 1. unfold logger at 1, emit at 1.
  unfold bind at 1.
  destruct (convertToHtml_pure answer url) as [r Hr].
  rewrite Hr in Hrender. simpl in Hrender. subst r. rewrite Hr.
  unfold bind at 1. unfold logger at 1, emit at 1.
  unfold happy_prefix. rewrite <- !app_assoc. reflexivity.
Qed.

(** X16.  When every stage goes through on the first try, a run is: one
    request for the listing, one request for the article whose link the
    listing gave, one call of the model with the title and the body of
    that article, a three-second sleep, then one post whose content is
    the document rendered from the answer of the model and the same
    link; nothing is sent to the notifier and the run ends normally. *)
Theorem main_happy_path (w : World) (pc url sys answer html : string)
    (resp1 resp2 : response) (t : list event) :
  let listing := listing_url pc (today_compact w) in
  let title := article_title (BeautifulSoup (text resp2)) in
  let body := article_body (BeautifulSoup (text resp2)) in
  missing_vars w = [] →
  environ w !! "PRESS_CODE" = Some pc →
  requests_get w listing (ua_random w) = Return resp1 →
  status_code resp1 = 200 →
  first_link (BeautifulSoup (text resp1)) = Some url →
  requests_get w url (ua_random w) = Return resp2 →
  status_code resp2 = 200 →
  prompt_md w = Some sys →
  generate_content w 0 (gemini_request w title body sys) = Return answer →
  (convertToHtml answer url []).2 = Return html →
  create_post w (post_of w (today_dashed w) html) = Return tt →
  main w t
  = ((t ++ happy_prefix w listing url title body sys answer html
        ++ [Log INFO "API 포스트 생성 시작";
            CreatePost (post_of w (today_dashed w) html);
            Log INFO "API 포스트 생성 완료"])%list,
     Return tt).
Proof.
  intros listing title body Henv Hpc H1 H1s H1l H2 H2s Hp Hgen Hrender Hpost.
  rewrite (main_env_ok w t Henv). unfold getenv. rewrite Hpc.
  unfold try_except at 1.
  rewrite (pipeline_until_publish w pc url sys answer html resp1 resp2 t
             H1 H1s H1l H2 H2s (checked_env_has_key w Henv) Hp Hgen Hrender).
  rewrite publish_is_post_of. unfold try_except. run_m. rewrite Hpost. simpl.
  rewrite <- !app_assoc. reflexivity.
Qed.

(** X17.  When the stages before the post go through and the post API
    raises an [ApiError], the run sends one notification whose text ends
    with the message of the error, logs the error and ends normally: the
    exception does not reach the outer handler. *)
Theorem main_api_error_notifies (w : World) (pc url sys answer html : string)
    (resp1 resp2 : response) (err : exn) (t : list event) :
  let listing := listing_url pc (today_compact w) in
  let title := article_title (BeautifulSoup (text resp2)) in
  let body := article_body (BeautifulSoup (text resp2)) in
  missing_vars w = [] →
  environ w !! "PRESS_CODE" = Some pc →
  requests_get w listing (ua_random w) = Return resp1 →
  status_code resp1 = 200 →
  first_link (BeautifulSoup (text resp1)) = Some url →
  requests_get w url (ua_random w) = Return resp2 →
  status_code resp2 = 200 →
  prompt_md w = Some sys →
  generate_content w 0 (gemini_request w title body sys) = Return answer →
  (convertToHtml answer url []).2 = Return html →
  create_post w (post_of w (today_dashed w) html) = Raise err →
  exn_cls err = ApiError →
  send_test_message w (msg_api_error (exn_arg err)) = Return tt →
  main w t
  = ((t ++ happy_prefix w listing url title body sys answer html
        ++ [Log INFO "API 포스트 생성 시작";
            CreatePost (post_of w (today_dashed w) html);
            TelegramTest (msg_api_error (exn_arg err));
            Log ERROR ("API 포스트 생성 오류: " +:+ exn_arg err)])%list,
     Return tt).
Proof.
  intros listing title body Henv Hpc H1 H1s H1l H2 H2s Hp Hgen Hrender Hpost
    Hcls Hsend.
  rewrite (main_env_ok w t Henv). unfold getenv. rewrite Hpc.
  unfold try_except at 1.
  rewrite (pipeline_until_publish w pc url sys answer html resp1 resp2 t
             H1 H1s H1l H2 H2s (checked_env_has_key w Henv) Hp Hgen Hrender).
  rewrite publish_is_post_of. unfold try_except. run_m. rewrite Hpost. simpl.
  rewrite Hcls. run_m. rewrite Hsend. simpl.
  rewrite <- !app_assoc. reflexivity.
Qed.
End run_paths.

(** ** Concrete runs of the further properties *)

Lemma gemini_no_attempts_witness :
  getGeminiResponse w_overloaded "T" "B" 0 5 3 [] = ([], Return None).
Proof.
  apply (gemini_no_attempts w_overloaded "T" "B"
           (gemini_request w_overloaded "T" "B" "PROMPT") 0 5 3 []).
  - reflexivity.
  - lia.
Defined.

Lemma gemini_call_bound_witness :
  ∃ evs r,
    getGeminiResponse w_overloaded "T" "B" 3 5 3 [] = (([] ++ evs)%list, r)
    ∧ (count_calls evs ≤ Z.to_nat 3)%nat
    ∧ ∀ e, e ∈ evs → is_model_call e = true →
           e = GenerateContent (gemini_request w_overloaded "T" "B" "PROMPT").
Proof.
  apply (gemini_call_bound w_overloaded "T" "B" "PROMPT" 3 5 3 []).
  reflexivity.
Defined.

Lemma gemini_sleep_bound_witness :
  ∃ evs r,
    getGeminiResponse w_overloaded "T" "B" 3 5 3 [] = (([] ++ evs)%list, r)
    ∧ total_sleep evs ≤ 5 * (2 ^ (3 - 1) - 1) + 3.
Proof.
  apply (gemini_sleep_bound w_overloaded "T" "B" "PROMPT" 3 5 3 []).
  - reflexivity.
  - lia.
  - lia.
  - lia.
Defined.




(** Beyond the range of [time.sleep] the exception is the overflow
    error, on both sides. *)
Example gemini_overflowing_delays :
  getGeminiResponse w_overloaded "T" "B" 3 (-10000000000) 3 []
  = ([GenerateContent (gemini_request w_overloaded "T" "B" "PROMPT");
      Log WARNING (msg_overloaded (-10000000000) 0 3)],
     Raise (mk_exn OverflowError "timestamp too large to convert to C _PyTime_t"))
  ∧ getGeminiResponse w_second_try "T" "B" 3 5 (-10000000000) []
    = ([GenerateContent (gemini_request w_second_try "T" "B" "PROMPT");
        Log WARNING (msg_overloaded 5 0 3);
        Sleep 5;
        GenerateContent (gemini_request w_second_try "T" "B" "PROMPT");
        Log ERROR (msg_unexpected "timestamp too large to convert to C _PyTime_t")],
       Return None).
Proof. split; vm_compute; reflexivity. Qed.

Lemma script_raises_iff_env_incomplete_witness :
  ((∃ e, (script (soup_lib:=soup_examples) (json_lib:=json_examples)
            startup_ok w_env_missing []).2 = Raise e)
   ↔ ∃ v, v ∈ required_env_vars
          ∧ (environ w_env_missing !! v = None
             ∨ environ w_env_missing !! v = Some EmptyString))
  ∧ ((script (soup_lib:=soup_examples) (json_lib:=json_examples)
        startup_ok w_env_missing []).2 = Return tt
     ∨ (script (soup_lib:=soup_examples) (json_lib:=json_examples)
          startup_ok w_env_missing []).2
       = Raise (mk_exn ValueError (msg_missing_env (missing_vars w_env_missing)))).
Proof.
  apply (script_raises_iff_env_incomplete (soup_lib:=soup_examples)
           (json_lib:=json_examples) startup_ok w_env_missing []).
  unfold startup_completes. simpl. eauto 10.
Defined.

(** With the environment complete, a constructor that fails after the
    check ends the script with its exception and an empty log. *)
Example script_failed_constructor :
  script (soup_lib:=soup_examples) (json_lib:=json_examples) startup_no_api w_happy []
  = ([], Raise (mk_exn OtherError "ApiUtil")).
Proof. vm_compute; reflexivity. Qed.

Example script_happy_run_is_main :
  script (soup_lib:=soup_examples) (json_lib:=json_examples) startup_ok w_happy []
  = main (soup_lib:=soup_examples) (json_lib:=json_examples) w_happy [].
Proof. apply script_is_main; reflexivity. Qed.

Lemma render_complete_payload_witness :
  ∃ html,
    convertToHtml (json_lib:=json_examples) "complete" "https://example.com/a1" []
    = ([], Return html)
    ∧ Forall (λ v, str_in (py_str (json_lib:=json_examples) v) html = true)
        [JStr "T"; JStr "S"; JStr "M"; JStr "I"; JStr "U"; JStr "F"]
    ∧ str_in ("<a href=" +:+ dq +:+ "https://example.com/a1" +:+ dq) html = true
    ∧ ∀ m vt vd, JDict m ∈ [term_complete] →
                 m !! "term" = Some vt → m !! "definition" = Some vd →
                 str_in (py_str (json_lib:=json_examples) vt) html = true
                 ∧ str_in (py_str (json_lib:=json_examples) vd) html = true.
Proof.
  apply (render_complete_payload (json_lib:=json_examples) "complete"
           "https://example.com/a1" (payload_with_terms [term_complete])).
  - reflexivity.
  - reflexivity.
  - reflexivity.
  - reflexivity.
  - reflexivity.
  - reflexivity.
  - reflexivity.
  - reflexivity.
  - repeat constructor; eexists; reflexivity.
Defined.

Lemma render_returns_only_for_complete_object_witness :
  ∃ d kt items,
    json_loads (PyJson:=json_examples) "complete" = Return (JDict d)
    ∧ (∀ k, k ∈ required_keys → is_Some (d !! k))
    ∧ d !! "key_terms" = Some kt
    ∧ py_iter kt = Return items
    ∧ Forall complete_entry items.
Proof.
  apply (render_returns_only_for_complete_object (json_lib:=json_examples)
           "complete" "https://example.com/a1" [] [] html_complete).
  vm_compute. reflexivity.
Defined.

Lemma first_article_returns_iff_witness :
  (getFirstArticleUrl (soup_lib:=soup_examples) (w_page "listing") "015" "20250102"
     "Mozilla/5.0" []).2
  = Return "https://example.com/a1".
Proof.
  apply (proj1 (proj2 (first_article_returns_iff (soup_lib:=soup_examples)
                         (w_page "listing") "015" "20250102" "Mozilla/5.0"
                         {| status_code := 200; text := "listing" |} [] eq_refl))).
  split; reflexivity.
Defined.

Lemma article_content_by_status_witness :
  (getArticleContent (soup_lib:=soup_examples) (w_page "article")
     "https://example.com/a1" "Mozilla/5.0" []).2
  = Return ("테스트 제목", "본문1" +:+ nl +:+ "본문2").
Proof.
  refine (eq_trans
            (proj1 (proj2 (article_content_by_status (soup_lib:=soup_examples)
                             (w_page "article") "https://example.com/a1"
                             "Mozilla/5.0"
                             {| status_code := 200; text := "article" |} [] eq_refl))
               eq_refl) _).
  vm_compute. reflexivity.
Defined.

Lemma main_happy_path_witness :
  main (soup_lib:=soup_examples) (json_lib:=json_examples) w_happy []
  = (([] ++ happy_prefix w_happy (listing_url "015" "20250102")
              "https://example.com/a1" "테스트 제목" ("본문1" +:+ nl +:+ "본문2")
              "PROMPT" "complete" html_complete
         ++ [Log INFO "API 포스트 생성 시작";
             CreatePost (post_of w_happy "2025-01-02" html_complete);
             Log INFO "API 포스트 생성 완료"])%list,
     Return tt).
Proof.
  refine (eq_trans
            (main_happy_path (soup_lib:=soup_examples) (json_lib:=json_examples)
               w_happy "015" "https://example.com/a1" "PROMPT" "complete"
               html_complete
               {| status_code := 200; text := "listing" |}
               {| status_code := 200; text := "article" |} []
               _ _ _ _ _ _ _ _ _ _ _) _);
    try reflexivity; vm_compute; reflexivity.
Defined.

Lemma main_api_error_notifies_witness :
  main (soup_lib:=soup_examples) (json_lib:=json_examples) w_api_error []
  = (([] ++ happy_prefix w_api_error (listing_url "015" "20250102")
              "https://example.com/a1" "테스트 제목" ("본문1" +:+ nl +:+ "본문2")
              "PROMPT" "complete" html_complete
         ++ [Log INFO "API 포스트 생성 시작";
             CreatePost (post_of w_api_error "2025-01-02" html_complete);
             TelegramTest (msg_api_error "HTTP 500");
             Log ERROR ("API 포스트 생성 오류: " +:+ "HTTP 500")])%list,
     Return tt).
Proof.
  refine (eq_trans
            (main_api_error_notifies (soup_lib:=soup_examples)
               (json_lib:=json_examples)
               w_api_error "015" "https://example.com/a1" "PROMPT" "complete"
               html_complete
               {| status_code := 200; text := "listing" |}
               {| status_code := 200; text := "article" |}
               (mk_exn ApiError "HTTP 500") []
               _ _ _ _ _ _ _ _ _ _ _ _ _) _);
    try reflexivity; vm_compute; reflexivity.
Defined.

(** ** Runs that stop at a failed stage *)

Lemma gemini_first_try_fatal (w : World) (title body sys : string) (e : exn)
    (t : list event) :
  genai_client (environ w !! "GOOGLE_API_KEY") = Return tt →
  prompt_md w = Some sys →
  generate_content w 0 (gemini_request w title body sys) = Raise e →
  is_transient (str_exn e) = false →
  getGeminiResponse w title body default_max_retries default_retry_delay
    default_success_delay t
  = ((t ++ [GenerateContent (gemini_request w title body sys);
            Log ERROR (msg_unexpected (str_exn e))])%list,
     Return None).
Proof.
  intros Hc Hp Hgen Hcls.
  rewrite (gemini_run _ _ _ _ _ _ _ _ (gemini_setup_ok w title body sys t Hc Hp)).
  change (range default_max_retries) with [Z.of_nat 0; 1; 2].
  rewrite (loop_return _ _ _ _ _ _ _ _ _ _
             (attempt_fatal w _ default_max_retries default_retry_delay
                default_success_delay 0 e t Hgen Hcls)).
  reflexivity.
Qed.

Section run_failures.
Context {tag : Type} {soup_lib : Soup tag} {json_lib : PyJson}.

(** X18.  A failed summarization stops the run before the renderer: when
    the pages are fetched and the first call of the model fails with a
    non-transient error, the run logs the failure and ends normally after
    two requests and one model call, with no post and no notification. *)
Theorem main_summarization_failure (w : World) (pc url sys : string)
    (resp1 resp2 : response) (e : exn) (t : list event) :
  let listing := listing_url pc (today_compact w) in
  let title := article_title (BeautifulSoup (text resp2)) in
  let body := article_body (BeautifulSoup (text resp2)) in
  missing_vars w = [] →
  environ w !! "PRESS_CODE" = Some pc →
  requests_get w listing (ua_random w) = Return resp1 →
  status_code resp1 = 200 →
  first_link (BeautifulSoup (text resp1)) = Some url →
  requests_get w url (ua_random w) = Return resp2 →
  status_code resp2 = 200 →
  prompt_md w = Some sys →
  generate_content w 0 (gemini_request w title body sys) = Raise e →
  is_transient (str_exn e) = false →
  main w t
  = ((t ++ [HttpGet listing (ua_random w);
            Log INFO ("✅ 기사 링크: " +:+ url);
            HttpGet url (ua_random w);
            Log INFO (nl +:+ "📰 [기사 제목] " +:+ nl +:+ title);
            Log INFO (nl +:+ "📝 [본문 내용] " +:+ nl +:+ body);
            GenerateContent (gemini_request w title body sys);
            Log ERROR (msg_unexpected (str_exn e));
            Log ERROR "❌ Gemini API 호출 실패";
            Log ERROR ("❌ 에러 발생: " +:+ "Gemini API 호출 실패")])%list,
     Return tt).
Proof.
  intros listing title body Henv Hpc H1 H1s H1l H2 H2s Hp Hgen Hcls.
  rewrite (main_env_ok w t Henv). unfold getenv. rewrite Hpc.
  unfold try_except.
  rewrite (pipeline_stops_on_null w (Some pc) (today_dashed w) (today_compact w)
             (ua_random w) url title body t
             (t ++ [HttpGet listing (ua_random w)])%list
             ((t ++ [HttpGet listing (ua_random w)])
                ++ [Log INFO ("✅ 기사 링크: " +:+ url)]
                ++ [HttpGet url (ua_random w)])%list
             ((((t ++ [HttpGet listing (ua_random w)])
                  ++ [Log INFO ("✅ 기사 링크: " +:+ url)]
                  ++ [HttpGet url (ua_random w)])
                 ++ [Log INFO (nl +:+ "📰 [기사 제목] " +:+ nl +:+ title);
                     Log INFO (nl +:+ "📝 [본문 내용] " +:+ nl +:+ body)])
                ++ [GenerateContent (gemini_request w title body sys);
                    Log ERROR (msg_unexpected (str_exn e))])%list).
  - unfold logger, emit. cbn [fst snd]. rewrite <- !app_assoc. reflexivity.
  - cbn [str_opt default].
    rewrite (first_article_result w pc (today_compact w) (ua_random w) resp1 t H1 H1s).
    rewrite H1l. reflexivity.
  - rewrite (article_content_run w url (ua_random w) resp2 _ H2 H2s).
    rewrite <- !app_assoc. reflexivity.
  - apply (gemini_first_try_fatal w title body sys e _ (checked_env_has_key w Henv)
             Hp Hgen Hcls).
Qed.

(** X19.  A listing page that answers with a status other than 200 ends
    the run after that single request: the failure, with the status code
    in its message, is logged by the outer handler, nothing else is
    fetched, asked, posted or notified, and the run ends normally. *)
Theorem main_listing_failure (w : World) (pc : string) (resp : response)
    (t : list event) :
  let listing := listing_url pc (today_compact w) in
  missing_vars w = [] →
  environ w !! "PRESS_CODE" = Some pc →
  requests_get w listing (ua_random w) = Return resp →
  status_code resp ≠ 200 →
  main w t
  = ((t ++ [HttpGet listing (ua_random w);
            Log ERROR ("❌ 에러 발생: " +:+ msg_list_failed (status_code resp))])%list,
     Return tt).
Proof.
  intros listing Henv Hpc Hget Hst.
  rewrite (main_env_ok w t Henv). unfold getenv. rewrite Hpc.
  unfold try_except, pipeline. unfold bind at 1. cbn [str_opt default].
  rewrite (first_article_bad_status w pc (today_compact w) (ua_random w) resp t
             Hget Hst).
  unfold logger, emit. rewrite <- !app_assoc. reflexivity.
Qed.
End run_failures.

Lemma main_summarization_failure_witness :
  main (soup_lib:=soup_examples) (json_lib:=json_examples) w_summary_fails []
  = (([] ++ [HttpGet (listing_url "015" "20250102") "Mozilla/5.0";
             Log INFO ("✅ 기사 링크: " +:+ "https://example.com/a1");
             HttpGet "https://example.com/a1" "Mozilla/5.0";
             Log INFO (nl +:+ "📰 [기사 제목] " +:+ nl +:+ "테스트 제목");
             Log INFO (nl +:+ "📝 [본문 내용] " +:+ nl +:+ "본문1" +:+ nl +:+ "본문2");
             GenerateContent (gemini_request w_summary_fails "테스트 제목"
                                ("본문1" +:+ nl +:+ "본문2") "PROMPT");
             Log ERROR (msg_unexpected (str_exn bad_request));
             Log ERROR "❌ Gemini API 호출 실패";
             Log ERROR ("❌ 에러 발생: " +:+ "Gemini API 호출 실패")])%list,
     Return tt).
Proof.
  refine (eq_trans
            (main_summarization_failure (soup_lib:=soup_examples)
               (json_lib:=json_examples)
               w_summary_fails "015" "https://example.com/a1" "PROMPT"
               {| status_code := 200; text := "listing" |}
               {| status_code := 200; text := "article" |}
               bad_request []
               _ _ _ _ _ _ _ _ _ _) _);
    try reflexivity; vm_compute; reflexivity.
Defined.

Lemma main_listing_failure_witness :
  main (soup_lib:=soup_examples) (json_lib:=json_examples) w_listing_404 []
  = (([] ++ [HttpGet (listing_url "015" "20250102") "Mozilla/5.0";
             Log ERROR ("❌ 에러 발생: " +:+ msg_list_failed 404)])%list,
     Return tt).
Proof.
  apply (main_listing_failure (soup_lib:=soup_examples) (json_lib:=json_examples)
           w_listing_404 "015" {| status_code := 404; text := "bare" |} []).
  - vm_compute; reflexivity.
  - reflexivity.
  - reflexivity.
  - simpl. lia.
Defined.
